(** * jarvis.py: the reasoning/response chain of the JARVIS chat client

    A shallow embedding of [src/jarvis/jarvis.py] (class [ModelChain] and the
    command loop of [main]) and the properties of its streaming tag
    extraction, message logs, model selection and elapsed-time label.

    Conventions of the embedding:
    - a Python [str] is a list of characters ([str := list ascii]);
    - the mutable attributes of [ModelChain] are a record threaded through
      every method; what a method prints is returned as a list of events;
    - a raised exception is a value ([Raise e]); [try/except] is a match;
    - the three backends, the clock and the terminal are the environment: a
      record [World] of what the network and [time.time()] deliver, of the
      characters that standard output can encode and of the markup that
      [rich] accepts;
    - a [print] of text that comes from outside (a fragment of a reply, a
      model name) or that holds characters outside ASCII raises when
      standard output cannot encode it, and the [rprint] of the model
      header raises when [rich] rejects it; the texts fixed in the source
      that are ASCII (banners, labels, tags, the final newline) are printed
      without fault, and so are the error reports of the handlers;
    - [json.loads], [str] methods and [f"{x:.1f}"] are modelled by what
      Python defines them to do ([line], [PyStr], [Fmt]).

    The definitions come first, in the order of the source; the facts and
    the properties follow. *)

From Stdlib Require Import Ascii String List ZArith Lia Bool.
From Stdlib Require Import Floats.PrimFloat Floats.SpecFloat Floats.FloatOps.
From Stdlib Require Import DecimalString.
Import ListNotations.

Set Implicit Arguments.

(* ================================================================= *)
(** ** Python strings *)

Definition str := list ascii.

(** A literal of the source. *)
Definition lit (s : string) : str := list_ascii_of_string s.

(** The newline character of ["\n"]. *)
Definition NL : str := [ascii_of_nat 10].

Module PyStr.

(** [s.startswith(p)]. *)
Fixpoint startswith (s p : str) {struct p} : bool :=
  match p with
  | [] => true
  | a :: p' =>
      match s with
      | [] => false
      | b :: s' => Ascii.eqb a b && startswith s' p'
      end
  end.

(** [sub in s]. *)
Fixpoint contains (s sub : str) : bool :=
  startswith s sub ||
  match s with
  | [] => false
  | _ :: s' => contains s' sub
  end.

(** [s.find(sub)]: the lowest index at which [sub] occurs, [-1] if none. *)
Fixpoint find (s sub : str) : Z :=
  if startswith s sub then 0%Z
  else match s with
       | [] => (-1)%Z
       | _ :: s' => let r := find s' sub in
                    if (r <? 0)%Z then (-1)%Z else (r + 1)%Z
       end.

(** A slice bound as Python reads it: a negative bound counts from the end
    and is clipped at the start of the string. *)
Definition bound (s : str) (i : Z) : nat :=
  Z.to_nat (if (i <? 0)%Z then Z.max 0 (Z.of_nat (List.length s) + i) else i).

(** [s[i:]] and [s[:i]]. *)
Definition slice_from (s : str) (i : Z) : str := skipn (bound s i) s.
Definition slice_to (s : str) (i : Z) : str := firstn (bound s i) s.

(** [s.replace(old, new)] for a non-empty [old]: occurrences are replaced
    from the left and do not overlap; [skip] counts the characters of a
    replaced occurrence still to be dropped. *)
Fixpoint replace_from (old new : str) (skip : nat) (s : str) : str :=
  match s with
  | [] => []
  | c :: s' =>
      match skip with
      | S k => replace_from old new k s'
      | O => if startswith s old
             then new ++ replace_from old new (List.length old - 1) s'
             else c :: replace_from old new 0 s'
      end
  end.

Definition replace (s old new : str) : str := replace_from old new 0 s.

(** [c.lower()] and [c.isspace()] on the code points below 256. *)
Definition lower_char (c : ascii) : ascii :=
  let n := nat_of_ascii c in
  if ((65 <=? n) && (n <=? 90))%nat then ascii_of_nat (n + 32)
  else if ((192 <=? n) && (n <=? 222) && negb (n =? 215))%nat
       then ascii_of_nat (n + 32)
       else c.

Definition lower (s : str) : str := map lower_char s.

Definition isspace (c : ascii) : bool :=
  let n := nat_of_ascii c in
  (((9 <=? n) && (n <=? 13)) || ((28 <=? n) && (n <=? 32))
   || (n =? 133) || (n =? 160))%nat.

Fixpoint lstrip (s : str) : str :=
  match s with
  | c :: s' => if isspace c then lstrip s' else s
  | [] => []
  end.

(** [s.strip()]. *)
Definition strip (s : str) : str := rev (lstrip (rev (lstrip s))).

(** [a == b] on strings. *)
Fixpoint eqb (a b : str) : bool :=
  match a, b with
  | [], [] => true
  | x :: a', y :: b' => Ascii.eqb x y && eqb a' b'
  | _, _ => false
  end.

End PyStr.

(* ================================================================= *)
(** ** Formatting a float with one decimal: [f"{x:.1f}"] *)

Module Fmt.

(** [round_half_even m e]: the integer nearest to [m * 2^e], ties to even.
    Python's [%.1f] is correctly rounded on the exact binary value. *)
Definition round_half_even (m e : Z) : Z :=
  if (0 <=? e)%Z then (m * 2 ^ e)%Z
  else
    let d := (2 ^ (- e))%Z in
    let q := (m / d)%Z in
    let r := (m mod d)%Z in
    match (2 * r ?= d)%Z with
    | Lt => q
    | Gt => (q + 1)%Z
    | Eq => if Z.even q then q else (q + 1)%Z
    end.

Definition digits (n : Z) : str :=
  lit (NilZero.string_of_uint (N.to_uint (Z.to_N n))).

(** The text of [tenths] tenths: integer part, a point, one digit. *)
Definition one_decimal (tenths : Z) : str :=
  digits (tenths / 10) ++ lit "." ++ digits (tenths mod 10).

Definition sign (neg : bool) : str := if neg then lit "-" else [].

(** [f"{x:.1f}"] for a binary64 [x]. *)
Definition format_1f (x : float) : str :=
  match Prim2SF x with
  | S754_nan => lit "nan"
  | S754_infinity s => sign s ++ lit "inf"
  | S754_zero s => sign s ++ lit "0.0"
  | S754_finite s m e =>
      sign s ++ one_decimal (round_half_even (10 * Z.pos m) e)
  end.

End Fmt.

(** Lines 107-110 and 183-186: the elapsed-time label. The comparison and
    the division are Python's on a float and the int [60], that is, binary64
    operations with [60.0]. *)
Definition time_str (elapsed_time : float) : str :=
  if (60 <=? elapsed_time)%float
  then Fmt.format_1f (elapsed_time / 60)%float ++ lit " minutes"
  else Fmt.format_1f elapsed_time ++ lit " seconds".

(* ================================================================= *)
(** ** Exceptions, printed events, messages *)

Inductive exn :=
| NameError (name : str)     (* a name bound in no enclosing scope *)
| AttributeError             (* an attribute that the object does not have *)
| TypeError                  (* [in], [[]] or [+=] on a value of the wrong type *)
| KeyError
| UnicodeDecodeError         (* [line.decode()] on bytes that are not UTF-8 *)
| UnicodeEncodeError         (* [print] of a character that stdout cannot encode *)
| MarkupError                (* [rprint] of markup that [rich] cannot parse *)
| ValueError                 (* [json.loads] on an integer with too many digits *)
| RecursionError             (* [json.loads] on a value nested too deeply *)
| ChunkError                 (* [chunk.choices[0].delta] on a malformed chunk *)
| TransportError.            (* raised by [requests] or by the OpenAI client *)

Inductive outcome (A : Type) :=
| Return (a : A)
| Raise (e : exn).
Arguments Raise {A} e.

Definition bind {A B} (x : outcome A) (k : A -> outcome B) : outcome B :=
  match x with
  | Return a => k a
  | Raise e => Raise e
  end.

Notation "x <- c ;; k" := (bind c (fun x => k))
  (at level 61, c at next level, right associativity).

(** What a call does to the outside world, in order. *)
Inductive event :=
| EvPrint (s : str)          (* [print(s, end="", flush=True)] *)
| EvPrintLn (s : str)        (* [print(s)] *)
| EvRich (s : str)           (* [rprint(s)] *)
| EvStreamError (e : exn)    (* [rprint("\n[red]Error in streaming response: ...")] *)
| EvChunkError (e : exn)     (* [rprint("\n[red]Error processing chunk: ...")] *)
| EvClose.                   (* [response.close()] *)

Inductive Role := system | user | assistant.

Record Message := { role : Role; content : str }.

(** Model constants (lines 15-18). *)
Definition DEEPSEEK_MODEL : str := lit "deepseek-reasoner".
Definition OPENROUTER_MODEL : str := lit "openai/gpt-4o-mini".
Definition OLLAMA_MODEL : str := lit "qwen2.5:14b".
Definition OLLAMA_DEEPSEEK : str := lit "deepseek-r1:14b".

Definition OPEN_TAG : str := lit "<think>".
Definition CLOSE_TAG : str := lit "</think>".
Definition SENTINEL : str := lit "Error occurred while streaming response".

(* ================================================================= *)
(** ** What the backends deliver *)

(** A streamed reply: the request itself may raise ([Refused]); otherwise
    the iterator yields [items] and then ends, normally or ([ok = false]) by
    raising. *)
Inductive stream (A : Type) :=
| Refused
| Stream (items : list A) (ok : bool).
Arguments Refused {A}.

(** An attribute of a delta: not there at all, [None], or a text. Reading
    an attribute that is not there raises [AttributeError]; [hasattr] tells
    the first case from the other two. *)
Inductive attr :=
| Absent
| IsNone
| Text (s : str).

(** One chunk of an OpenAI-style stream: [chunk.choices[0].delta], or a
    chunk on which that access raises. *)
Record delta := { reasoning_content : attr; delta_content : attr }.

Inductive hosted_chunk :=
| Delta (d : delta)
| Malformed.

(** A parsed JSON value as [json.loads] returns it; an object is the list of
    its entries (keys distinct, as in a dict). *)
#[local] Unset Elimination Schemes.
Inductive json :=
| JNull
| JBool (b : bool)
| JNum (n : Z)                (* the code never looks at a number *)
| JStr (s : str)
| JArr (l : list json)
| JObj (kv : list (str * json)).
#[local] Set Elimination Schemes.

(** One element of [response.iter_lines()], by what
    [json.loads(line.decode())] does on it: it returns a value, or one of
    the two calls raises. *)
Inductive line :=
| EmptyLine                  (* [b""]: skipped by [if line:] *)
| BadUtf8                    (* [line.decode()] raises [UnicodeDecodeError] *)
| BadJson                    (* [json.loads] raises [JSONDecodeError] *)
| LoadsRaises (e : exn)      (* [json.loads] raises something else:
                                [ValueError], [RecursionError] *)
| Json (v : json).

Module Py.

Fixpoint lookup (k : str) (kv : list (str * json)) : option json :=
  match kv with
  | [] => None
  | (k', v) :: kv' => if PyStr.eqb k' k then Some v else lookup k kv'
  end.

Definition is_str (k : str) (v : json) : bool :=
  match v with
  | JStr s => PyStr.eqb s k
  | _ => false
  end.

(** [k in v] for a string [k]. *)
Definition contains (k : str) (v : json) : outcome bool :=
  match v with
  | JObj kv => Return (match lookup k kv with Some _ => true | None => false end)
  | JArr l => Return (existsb (is_str k) l)
  | JStr s => Return (PyStr.contains s k)
  | JNull | JBool _ | JNum _ => Raise TypeError
  end.

(** [v[k]] for a string [k]. *)
Definition getitem (v : json) (k : str) : outcome json :=
  match v with
  | JObj kv => match lookup k kv with
               | Some x => Return x
               | None => Raise KeyError
               end
  | _ => Raise TypeError
  end.

(** The operand of [s += content]: only a [str] can be appended. *)
Definition as_str (v : json) : outcome str :=
  match v with
  | JStr s => Return s
  | _ => Raise TypeError
  end.

(** [d.name] read as a condition: the text when it is true ([None] and
    [""] are false); [AttributeError] when the attribute is not there. *)
Definition truthy (a : attr) : outcome (option str) :=
  match a with
  | Absent => Raise AttributeError
  | IsNone | Text [] => Return None
  | Text (c :: s) => Return (Some (c :: s))
  end.

(** [hasattr(d, name) and d.name is not None]: the text, if any. *)
Definition present (a : attr) : option str :=
  match a with
  | Text s => Some s
  | Absent | IsNone => None
  end.

End Py.

(** Lines 148-149 and 261-262:
    [if "message" in chunk and "content" in chunk["message"]], then
    [chunk["message"]["content"]] as the string to append. [None] when the
    condition is false. *)
Definition message_content (chunk : json) : outcome (option str) :=
  has_message <- Py.contains (lit "message") chunk ;;
  if has_message then
    message <- Py.getitem chunk (lit "message") ;;
    has_content <- Py.contains (lit "content") message ;;
    if has_content then
      c <- Py.getitem message (lit "content") ;;
      s <- Py.as_str c ;;
      Return (Some s)
    else Return None
  else Return None.

(** The line a local backend sends for the text fragment [c]:
    [{"message": {"content": c}}]. *)
Definition content_line (c : str) : line :=
  Json (JObj [(lit "message", JObj [(lit "content", JStr c)])]).

(* ================================================================= *)
(** ** ModelChain *)

(** The attributes of [ModelChain] that the methods read or write (lines
    26-58). The clients themselves belong to the environment; a hosted
    client exists exactly when its [has_] flag is set. *)
Record ModelChain := {
  has_official_deepseek : bool;
  has_openrouter : bool;
  deepseek_messages : list Message;
  openrouter_messages : list Message;
  ollama_messages : list Message;
  current_model : str;
  show_reasoning : bool;
  use_ollama_deepseek : bool
}.

(** [ModelChain()] given which API keys the environment holds. *)
Definition init (deepseek_key openrouter_key : bool) : ModelChain :=
  {| has_official_deepseek := deepseek_key;
     has_openrouter := openrouter_key;
     deepseek_messages := [];
     openrouter_messages := [];
     ollama_messages := [];
     current_model := if negb openrouter_key then OLLAMA_MODEL
                      else OPENROUTER_MODEL;
     show_reasoning := true;
     use_ollama_deepseek := negb deepseek_key |}.

Definition with_deepseek_messages (self : ModelChain) (l : list Message) :=
  {| has_official_deepseek := has_official_deepseek self;
     has_openrouter := has_openrouter self;
     deepseek_messages := l;
     openrouter_messages := openrouter_messages self;
     ollama_messages := ollama_messages self;
     current_model := current_model self;
     show_reasoning := show_reasoning self;
     use_ollama_deepseek := use_ollama_deepseek self |}.

Definition with_openrouter_messages (self : ModelChain) (l : list Message) :=
  {| has_official_deepseek := has_official_deepseek self;
     has_openrouter := has_openrouter self;
     deepseek_messages := deepseek_messages self;
     openrouter_messages := l;
     ollama_messages := ollama_messages self;
     current_model := current_model self;
     show_reasoning := show_reasoning self;
     use_ollama_deepseek := use_ollama_deepseek self |}.

Definition with_ollama_messages (self : ModelChain) (l : list Message) :=
  {| has_official_deepseek := has_official_deepseek self;
     has_openrouter := has_openrouter self;
     deepseek_messages := deepseek_messages self;
     openrouter_messages := openrouter_messages self;
     ollama_messages := l;
     current_model := current_model self;
     show_reasoning := show_reasoning self;
     use_ollama_deepseek := use_ollama_deepseek self |}.

Definition with_show_reasoning (self : ModelChain) (b : bool) :=
  {| has_official_deepseek := has_official_deepseek self;
     has_openrouter := has_openrouter self;
     deepseek_messages := deepseek_messages self;
     openrouter_messages := openrouter_messages self;
     ollama_messages := ollama_messages self;
     current_model := current_model self;
     show_reasoning := b;
     use_ollama_deepseek := use_ollama_deepseek self |}.

Definition with_model (self : ModelChain) (m : str) (use_ollama : bool) :=
  {| has_official_deepseek := has_official_deepseek self;
     has_openrouter := has_openrouter self;
     deepseek_messages := deepseek_messages self;
     openrouter_messages := openrouter_messages self;
     ollama_messages := ollama_messages self;
     current_model := m;
     show_reasoning := show_reasoning self;
     use_ollama_deepseek := use_ollama |}.

(** What a method call leaves behind: its value (or the exception it
    raised), the object, and what it printed or closed. *)
Record result (A : Type) := {
  value : outcome A;
  obj : ModelChain;
  effects : list event
}.

Definition WARNING : str :=
  NL ++ lit "[red]Warning: OpenRouter API key not found, falling back to Ollama model[/]".

(** Lines 60-66. *)
Definition set_model (self : ModelChain) (model_name : str)
  : ModelChain * list event :=
  let ollama_deepseek := PyStr.startswith model_name (lit "ollama:deepseek") in
  if negb (has_openrouter self)
     && negb (PyStr.startswith model_name (lit "ollama:"))
  then (with_model self OLLAMA_MODEL ollama_deepseek, [EvRich WARNING])
  else (with_model self model_name ollama_deepseek, []).

(** Lines 68-69. *)
Definition get_model_display_name (self : ModelChain) : str :=
  current_model self.

(** Lines 194-197 and 233-236. *)
Definition combined_prompt (user_input reasoning : str) : str :=
  lit "<question>" ++ user_input ++ lit "</question>" ++ NL ++ NL
  ++ reasoning ++ NL ++ NL.

Definition when (b : bool) (l : list event) : list event :=
  if b then l else [].

Definition REASONING_BANNER : event :=
  EvRich (NL ++ lit "[blue]Reasoning Process[/]").

Definition thought_for (label : str) : event :=
  EvRich (NL ++ NL ++ lit "[yellow]Thought for " ++ label ++ lit "[/]").

(** The characters of ASCII. *)
Definition ascii_only (c : ascii) : bool := (nat_of_ascii c <? 128)%nat.

(** [print(s, end="", flush=True)] writes [s] through the encoding of
    standard output and raises [UnicodeEncodeError] at a character that the
    encoding does not have. Every encoding that standard output takes has
    the characters of ASCII; [enc] tells which of the others it has. *)
Definition can_print (enc : ascii -> bool) (s : str) : bool :=
  forallb (fun c => ascii_only c || enc c) s.

(** A sequence of prints: the texts are written in order up to the first
    one that raises. *)
Fixpoint print_all (enc : ascii -> bool) (texts : list str)
  : list event * option exn :=
  match texts with
  | [] => ([], None)
  | s :: rest =>
      if can_print enc s
      then let (ev, failed) := print_all enc rest in (EvPrint s :: ev, failed)
      else ([], Some UnicodeEncodeError)
  end.

(** [if self.show_reasoning: print(...)], once or more in a row. *)
Definition print_if (enc : ascii -> bool) (show : bool) (texts : list str)
  : list event * option exn :=
  if show then print_all enc texts else ([], None).

(* ================================================================= *)
(** ** Loops over a stream *)

(** What one pass of a loop body decides. *)
Inductive control (S : Type) :=
| Next (s : S)               (* fall through or [continue] *)
| Break (s : S)              (* [break] *)
| Throw (e : exn).           (* an exception leaves the loop *)
Arguments Throw {S} e.

(** [for item in items: body]. [Next] at the end: the iterator ran dry. *)
Fixpoint for_each {S I : Type} (body : I -> S -> list event * control S)
  (items : list I) (st : S) : list event * control S :=
  match items with
  | [] => ([], Next st)
  | i :: rest =>
      match body i st with
      | (ev, Next st') =>
          let (ev', c) := for_each body rest st' in (ev ++ ev', c)
      | (ev, c) => (ev, c)
      end
  end.

(** The locals of the tag extraction (lines 140-142). *)
Record think := {
  reasoning : str;           (* [reasoning_content] *)
  current_chunk : str;
  has_started_think : bool
}.

Definition think0 : think :=
  {| reasoning := []; current_chunk := []; has_started_think := false |}.

(** Lines 153-158: the opening tag is looked for in everything buffered so
    far; on a match the buffer restarts after the tag. The print of line
    156 may raise. *)
Definition think_open (enc : ascii -> bool) (show : bool) (st : think)
  : list event * control think :=
  if negb (has_started_think st)
     && PyStr.contains (current_chunk st) OPEN_TAG
  then
    match print_if enc show [OPEN_TAG] with
    | (ev, Some e) => (ev, Throw e)
    | (ev, None) =>
        (ev,
         Next {| reasoning := reasoning st ++ OPEN_TAG;
                 current_chunk :=
                   PyStr.slice_from (current_chunk st)
                     (PyStr.find (current_chunk st) OPEN_TAG + 7);
                 has_started_think := true |})
    end
  else ([], Next st).

(** Lines 160-173: inside the reasoning, the buffer either holds the closing
    tag (emit up to it, close, break) or is emitted whole and emptied. The
    prints of lines 164, 165 and 171 may raise; they come before the text
    is collected and before the response is closed. *)
Definition think_body (enc : ascii -> bool) (show : bool) (st : think)
  : list event * control think :=
  if has_started_think st then
    if PyStr.contains (current_chunk st) CLOSE_TAG then
      let end_idx := PyStr.find (current_chunk st) CLOSE_TAG in
      match print_if enc show
              [PyStr.slice_to (current_chunk st) end_idx; CLOSE_TAG] with
      | (ev, Some e) => (ev, Throw e)
      | (ev, None) =>
          (ev ++ [EvClose],
           Break {| reasoning := reasoning st
                                 ++ PyStr.slice_to (current_chunk st) end_idx
                                 ++ CLOSE_TAG;
                    current_chunk := current_chunk st;
                    has_started_think := true |})
      end
    else
      match print_if enc show [current_chunk st] with
      | (ev, Some e) => (ev, Throw e)
      | (ev, None) =>
          (ev,
           Next {| reasoning := reasoning st ++ current_chunk st;
                   current_chunk := [];
                   has_started_think := true |})
      end
  else ([], Next st).

(** Lines 149-173 for one text fragment [content]. *)
Definition think_chunk (enc : ascii -> bool) (show : bool) (content : str)
  (st : think) : list event * control think :=
  let buffered := {| reasoning := reasoning st;
                     current_chunk := current_chunk st ++ content;
                     has_started_think := has_started_think st |} in
  match think_open enc show buffered with
  | (ev1, Next st1) =>
      let (ev2, c) := think_body enc show st1 in (ev1 ++ ev2, c)
  | (ev1, stopped) => (ev1, stopped)
  end.

(** Lines 145-176 for one line of the reply. Only [JSONDecodeError] is
    caught inside the loop. *)
Definition think_line (enc : ascii -> bool) (show : bool) (l : line)
  (st : think) : list event * control think :=
  match l with
  | EmptyLine => ([], Next st)
  | BadUtf8 => ([], Throw UnicodeDecodeError)
  | BadJson => ([], Next st)
  | LoadsRaises e => ([], Throw e)
  | Json chunk =>
      match message_content chunk with
      | Raise e => ([], Throw e)
      | Return None => ([], Next st)
      | Return (Some content) => think_chunk enc show content st
      end
  end.

(** Lines 97-104 for one chunk of the hosted reasoning stream; the state is
    ([reasoning_content], [final_content]). Both attributes are read
    unguarded, and nothing catches what the print of line 102 raises. *)
Definition official_chunk (enc : ascii -> bool) (show : bool)
  (c : hosted_chunk) (st : str * str) : list event * control (str * str) :=
  match c with
  | Malformed => ([], Throw ChunkError)
  | Delta d =>
      match Py.truthy (reasoning_content d) with
      | Raise e => ([], Throw e)
      | Return (Some reasoning_piece) =>
          match print_if enc show [reasoning_piece] with
          | (ev, Some e) => (ev, Throw e)
          | (ev, None) => (ev, Next (fst st ++ reasoning_piece, snd st))
          end
      | Return None =>
          match Py.truthy (delta_content d) with
          | Raise e => ([], Throw e)
          | Return (Some c) => ([], Next (fst st, snd st ++ c))
          | Return None => ([], Next st)
          end
      end
  end.

(** Lines 211-220 for one chunk of the hosted response stream; a chunk that
    cannot be read is reported and skipped. The print of line 217 comes
    after the text is collected, inside the same [try]: when it raises, the
    error is reported and the text stays. *)
Definition openrouter_chunk (enc : ascii -> bool) (c : hosted_chunk)
  (full_response : str) : list event * control str :=
  match c with
  | Malformed => ([EvChunkError ChunkError], Next full_response)
  | Delta d =>
      match Py.present (delta_content d) with
      | Some content_piece =>
          (if can_print enc content_piece then [EvPrint content_piece]
           else [EvChunkError UnicodeEncodeError],
           Next (full_response ++ content_piece))
      | None => ([], Next full_response)
      end
  end.

(** Lines 257-266 for one line of the local response stream. The print of
    line 264 may raise, and only [JSONDecodeError] is caught inside the
    loop. *)
Definition response_line (enc : ascii -> bool) (l : line)
  (full_response : str) : list event * control str :=
  match l with
  | EmptyLine => ([], Next full_response)
  | BadUtf8 => ([], Throw UnicodeDecodeError)
  | BadJson => ([], Next full_response)
  | LoadsRaises e => ([], Throw e)
  | Json chunk =>
      match message_content chunk with
      | Raise e => ([], Throw e)
      | Return None => ([], Next full_response)
      | Return (Some content_piece) =>
          if can_print enc content_piece
          then ([EvPrint content_piece],
                Next (full_response ++ content_piece))
          else ([], Throw UnicodeEncodeError)
      end
  end.

(** No module-level [start_time] exists: the only binding is the local of
    [get_deepseek_reasoning] (line 72), which a callee does not see. *)
Definition global_start_time : option float := None.

(* ================================================================= *)
(** ** The environment and the methods that talk to it *)

(** What the outside delivers during one turn: the reply of each backend to
    a request (model name and messages sent), the two readings of
    [time.time()] that the local reasoning call subtracts, and the
    terminal: the characters that the encoding of standard output has, and
    what [rprint] raises on a markup text, if anything ([MarkupError] on a
    closing tag that closes nothing). *)
Record World := {
  deepseek_api : str -> list Message -> stream hosted_chunk;
  openrouter_api : str -> list Message -> stream hosted_chunk;
  ollama_api : str -> list Message -> stream line;
  clock_start : float;
  clock_end : float;
  encodes : ascii -> bool;
  rprint_raises : str -> option exn
}.

Definition REASONING_SYSTEM_PROMPT : str :=
  lit "You are a helpful assistant that thinks step by step. Format your response as: <think>your step by step reasoning</think> and stop immediately after closing the think tag.".

Definition RESPONSE_SYSTEM_PROMPT : str :=
  lit "You are a helpful assistant that provides clear and concise answers.".

(** Lines 124-127: the messages of the local reasoning request. *)
Definition reasoning_messages (user_input : str) : list Message :=
  [{| role := system; content := REASONING_SYSTEM_PROMPT |};
   {| role := user;
      content := lit "Analyze this request step by step:" ++ NL
                 ++ user_input |}].

(** Lines 238-241: the messages of the local response request. *)
Definition response_messages (user_input reasoning : str) : list Message :=
  [{| role := system; content := RESPONSE_SYSTEM_PROMPT |};
   {| role := user; content := combined_prompt user_input reasoning |}].

(** The three requests, as the methods below send them. *)
Definition reasoning_reply (w : World) (user_input : str) : stream line :=
  ollama_api w (PyStr.replace OLLAMA_DEEPSEEK (lit "ollama:") [])
    (reasoning_messages user_input).

Definition response_reply (w : World) (self : ModelChain)
  (user_input reasoning : str) : stream line :=
  ollama_api w (PyStr.replace (current_model self) (lit "ollama:") [])
    (response_messages user_input reasoning).

Definition prompt_message (user_input reasoning : str) : Message :=
  {| role := user; content := combined_prompt user_input reasoning |}.

Definition openrouter_reply (w : World) (self : ModelChain)
  (user_input reasoning : str) : stream hosted_chunk :=
  openrouter_api w (current_model self)
    (openrouter_messages self ++ [prompt_message user_input reasoning]).

Section Methods.

Variable w : World.

(** Lines 80-115. The user message is appended first; nothing in the method
    catches an exception; and line 106 reads [start_time]. *)
Definition get_official_deepseek_reasoning (self : ModelChain)
  (user_input : str) : result str :=
  let self1 := with_deepseek_messages self
                 (deepseek_messages self
                  ++ [{| role := user; content := user_input |}]) in
  let show := show_reasoning self in
  let banner := when show [REASONING_BANNER] in
  let raised e ev :=
    {| value := Raise e; obj := self1; effects := banner ++ ev |} in
  if negb (has_official_deepseek self) then raised AttributeError []
  else
    match deepseek_api w DEEPSEEK_MODEL (deepseek_messages self1) with
    | Refused => raised TransportError []
    | Stream chunks ok =>
        match for_each (official_chunk (encodes w) show) chunks ([], []) with
        | (ev, Throw e) => raised e ev
        | (ev, Next st) | (ev, Break st) =>
            if ok then
              match global_start_time with
              | None => raised (NameError (lit "start_time")) ev
              | Some start_time =>
                  let elapsed_time := (clock_end w - start_time)%float in
                  {| value := Return (fst st);
                     obj := self1;
                     effects := banner ++ ev
                                ++ [thought_for (time_str elapsed_time)]
                                ++ when show [EvPrintLn NL] |}
              end
            else raised TransportError ev
        end
    end.

(** Lines 117-191. The request carries a fresh two-message list; no log of
    [self] is read or written. Every exception inside the [try] ends in the
    fixed text. *)
Definition get_ollama_deepseek_reasoning (self : ModelChain)
  (user_input : str) : result str :=
  let show := show_reasoning self in
  let banner := when show [REASONING_BANNER] in
  let failed e ev :=
    {| value := Return SENTINEL; obj := self;
       effects := banner ++ ev ++ [EvStreamError e] |} in
  let finished ev st :=
    let elapsed_time := (clock_end w - clock_start w)%float in
    {| value := Return (reasoning st); obj := self;
       effects := banner ++ ev ++ [thought_for (time_str elapsed_time)]
                  ++ when show [EvPrintLn NL] |} in
  match reasoning_reply w user_input with
  | Refused => failed TransportError []
  | Stream lines ok =>
      match for_each (think_line (encodes w) show) lines think0 with
      | (ev, Throw e) => failed e ev
      | (ev, Break st) => finished ev st
      | (ev, Next st) => if ok then finished ev st
                         else failed TransportError ev
      end
  end.

(** Lines 71-78. *)
Definition get_deepseek_reasoning (self : ModelChain) (user_input : str)
  : result str :=
  if negb (has_official_deepseek self) || use_ollama_deepseek self
  then get_ollama_deepseek_reasoning self user_input
  else get_official_deepseek_reasoning self user_input.

(** Lines 201 and 243: [rprint(f"[green]{self.get_model_display_name()}[/]")],
    before the [try]: what it raises leaves the method. *)
Definition header_of (name : str) : str :=
  lit "[green]" ++ name ++ lit "[/]".

Definition header_text (self : ModelChain) : str :=
  header_of (get_model_display_name self).

Definition model_header (self : ModelChain) : event :=
  EvRich (header_text self).

(** Lines 226-227 and 272-273: [l.append({"role": "assistant", ...})]. *)
Definition assistant_message (full_response : str) : Message :=
  {| role := assistant; content := full_response |}.

Definition append_assistant (l : list Message) (full_response : str) :=
  l ++ [assistant_message full_response].

(** Lines 193-230. *)
Definition get_openrouter_response (self : ModelChain)
  (user_input reasoning : str) : result str :=
  let self1 := with_openrouter_messages self
                 (openrouter_messages self
                  ++ [prompt_message user_input reasoning]) in
  let failed e ev :=
    {| value := Return SENTINEL; obj := self1;
       effects := [model_header self] ++ ev ++ [EvStreamError e] |} in
  match rprint_raises w (header_text self) with
  | Some e => {| value := Raise e; obj := self1; effects := [] |}
  | None =>
  if negb (has_openrouter self) then failed AttributeError []
  else
    match openrouter_reply w self user_input reasoning with
    | Refused => failed TransportError []
    | Stream chunks ok =>
        match for_each (openrouter_chunk (encodes w)) chunks [] with
        | (ev, Throw e) => failed e ev
        | (ev, Next full_response) | (ev, Break full_response) =>
            if ok then
              let self2 := with_deepseek_messages self1
                   (append_assistant (deepseek_messages self1) full_response) in
              let self3 := with_openrouter_messages self2
                   (append_assistant (openrouter_messages self2) full_response) in
              {| value := Return full_response; obj := self3;
                 effects := [model_header self] ++ ev ++ [EvPrintLn NL] |}
            else failed TransportError ev
        end
    end
  end.

(** Lines 232-276. *)
Definition get_ollama_response (self : ModelChain)
  (user_input reasoning : str) : result str :=
  let failed e ev :=
    {| value := Return SENTINEL; obj := self;
       effects := [model_header self] ++ ev ++ [EvStreamError e] |} in
  match rprint_raises w (header_text self) with
  | Some e => {| value := Raise e; obj := self; effects := [] |}
  | None =>
  match response_reply w self user_input reasoning with
  | Refused => failed TransportError []
  | Stream lines ok =>
      match for_each (response_line (encodes w)) lines [] with
      | (ev, Throw e) => failed e ev
      | (ev, Next full_response) | (ev, Break full_response) =>
          if ok then
            let self1 := with_deepseek_messages self
                 (append_assistant (deepseek_messages self) full_response) in
            let self2 := with_ollama_messages self1
                 (append_assistant (ollama_messages self1) full_response) in
            {| value := Return full_response; obj := self2;
               effects := [model_header self] ++ ev ++ [EvPrintLn NL] |}
          else failed TransportError ev
      end
  end
  end.

(** Lines 278-283. *)
Definition get_response (self : ModelChain) (user_input reasoning : str)
  : result str :=
  if negb (has_openrouter self)
     || PyStr.startswith (current_model self) (lit "ollama:")
  then get_ollama_response self user_input reasoning
  else get_openrouter_response self user_input reasoning.

(* ----------------------------------------------------------------- *)
(** *** One pass of the command loop of [main] (lines 312-345) *)

(** What [session.prompt] gives: a line of text, or an interrupt. *)
Inductive prompt :=
| Typed (text : str)
| KeyboardInterrupt
| EOFError.

Inductive loop :=
| Continue                   (* the loop reads the next prompt *)
| Stop                       (* [break] *)
| Crash (e : exn).           (* an exception neither handler catches *)

(** Line 317: the literal ends in four characters outside ASCII, kept here
    as the ten bytes that they take in the source file. *)
Definition GOODBYE_TEXT : str :=
  NL ++ lit "Goodbye! "
  ++ map ascii_of_nat [195; 176; 197; 184; 226; 128; 152; 226; 128; 185].

Definition GOODBYE : event := EvPrintLn GOODBYE_TEXT.
Definition CLEARED : event :=
  EvRich (NL ++ lit "[magenta]Chat history cleared![/]" ++ NL).
Definition changed_model_text (name : str) : str :=
  NL ++ lit "Changed model to: " ++ name ++ NL.

Definition changed_model (name : str) : event :=
  EvPrintLn (changed_model_text name).
Definition reasoning_status (visible : bool) : event :=
  EvRich (NL ++ lit "[magenta]Reasoning process is now "
          ++ (if visible then lit "visible" else lit "hidden")
          ++ lit "[/]" ++ NL).

(** Lines 320-323: the three logs are rebound to fresh empty lists. *)
Definition clear (chain : ModelChain) : ModelChain :=
  with_ollama_messages
    (with_openrouter_messages (with_deepseek_messages chain []) []) [].

(** Lines 339-340: a turn. An exception of either call is caught by
    neither handler of the loop. *)
Definition turn (chain : ModelChain) (user_input : str)
  : loop * ModelChain * list event :=
  let r := get_deepseek_reasoning chain user_input in
  match value r with
  | Raise e => (Crash e, obj r, effects r)
  | Return reasoning =>
      let r' := get_response (obj r) user_input reasoning in
      match value r' with
      | Raise e => (Crash e, obj r', effects r ++ effects r')
      | Return _ => (Continue, obj r', effects r ++ effects r')
      end
  end.

Definition main_step (chain : ModelChain) (p : prompt)
  : loop * ModelChain * list event :=
  match p with
  | KeyboardInterrupt => (Continue, chain, [])
  | EOFError => (Stop, chain, [])
  | Typed text =>
      let user_input := PyStr.strip text in
      if PyStr.eqb (PyStr.lower user_input) (lit "quit")
      then
        if can_print (encodes w) GOODBYE_TEXT then (Stop, chain, [GOODBYE])
        else (Crash UnicodeEncodeError, chain, [])
      else if PyStr.eqb (PyStr.lower user_input) (lit "clear")
      then (Continue, clear chain, [CLEARED])
      else if PyStr.startswith (PyStr.lower user_input) (lit "model ")
      then
        let new_model := PyStr.strip (PyStr.slice_from user_input 6) in
        let (chain', ev) := set_model chain new_model in
        if can_print (encodes w)
             (changed_model_text (get_model_display_name chain'))
        then (Continue, chain',
              ev ++ [changed_model (get_model_display_name chain')])
        else (Crash UnicodeEncodeError, chain', ev)
      else if PyStr.eqb (PyStr.lower user_input) (lit "reasoning")
      then
        let chain' := with_show_reasoning chain
                        (negb (show_reasoning chain)) in
        (Continue, chain', [reasoning_status (show_reasoning chain')])
      else turn chain user_input
  end.

End Methods.

(* ================================================================= *)
(** ** Vocabulary of the statements *)

(** [p] occurs in [s]. *)
Definition occurs (p s : str) : Prop := exists a b, s = a ++ p ++ b.

(** A sequence of text fragments as the local backend streams it. *)
Definition fragments (cs : list str) : list line := map content_line cs.

(** The two shapes of the extraction state between fragments: still waiting
    for the opening tag with [buf] buffered, or inside the reasoning with an
    empty buffer. *)
Definition waiting (r buf : str) : think :=
  {| reasoning := r; current_chunk := buf; has_started_think := false |}.

Definition inside (r : str) : think :=
  {| reasoning := r; current_chunk := []; has_started_think := true |}.

(** Whether a call closed the response early ([response.close()], followed
    by [break]). *)
Definition is_close (e : event) : bool :=
  match e with
  | EvClose => true
  | _ => false
  end.

Definition closed {A : Type} (r : result A) : bool :=
  existsb is_close (effects r).

(** The three logs of a chain. *)
Definition logs (self : ModelChain)
  : list Message * list Message * list Message :=
  (deepseek_messages self, openrouter_messages self, ollama_messages self).

Definition all_messages (self : ModelChain) : list Message :=
  deepseek_messages self ++ openrouter_messages self ++ ollama_messages self.

(** Everything of a chain except its logs. *)
Definition settings (self : ModelChain) : bool * bool * str * bool * bool :=
  (has_official_deepseek self, has_openrouter self, current_model self,
   show_reasoning self, use_ollama_deepseek self).


(** A world for examples: fixed replies and clock readings; the local
    backend tells the reasoning request from the response request by the
    model name. *)
Definition world_of (deepseek openrouter : stream hosted_chunk)
  (reasoning_lines response_lines : stream line) (t0 t1 : float) : World :=
  {| deepseek_api := fun _ _ => deepseek;
     openrouter_api := fun _ _ => openrouter;
     ollama_api := fun model _ =>
       if PyStr.eqb model OLLAMA_DEEPSEEK then reasoning_lines
       else response_lines;
     clock_start := t0;
     clock_end := t1;
     encodes := fun _ => true;
     rprint_raises := fun _ => None |}.

(** The same world behind another terminal. *)
Definition with_terminal (w : World) (enc : ascii -> bool)
  (raises : str -> option exn) : World :=
  {| deepseek_api := deepseek_api w;
     openrouter_api := openrouter_api w;
     ollama_api := ollama_api w;
     clock_start := clock_start w;
     clock_end := clock_end w;
     encodes := enc;
     rprint_raises := raises |}.


(** What [rich] does with a closing tag that closes nothing, here [[/x]]. *)
Definition strict_markup (text : str) : option exn :=
  if PyStr.contains text (lit "[/x]") then Some MarkupError else None.

(** The terminal of [w] prints [s], and so every part of [s]. *)
Definition printable (w : World) (s : str) : bool := can_print (encodes w) s.

(** Echoing [s] under the visibility flag [show] does not raise: the flag
    is off, or the text can be printed. *)
Definition echoes (enc : ascii -> bool) (show : bool) (s : str) : bool :=
  negb show || can_print enc s.

Definition can_echo (w : World) (self : ModelChain) (s : str) : bool :=
  echoes (encodes w) (show_reasoning self) s.

(** Two worlds behind the same terminal. *)
Definition same_terminal (w w' : World) : Prop :=
  encodes w = encodes w' /\ rprint_raises w = rprint_raises w'.

(** [rprint] accepts the header of the response call. *)
Definition header_renders (w : World) (self : ModelChain) : Prop :=
  rprint_raises w (header_text self) = None.

(** Only the local backend is up. *)
Definition local_world (reasoning_lines response_lines : stream line) : World :=
  world_of Refused Refused reasoning_lines response_lines 100 145.

Definition says (text : string) : hosted_chunk :=
  Delta {| reasoning_content := IsNone; delta_content := Text (lit text) |}.

Definition thinks (text : string) : hosted_chunk :=
  Delta {| reasoning_content := Text (lit text); delta_content := IsNone |}.



(** The fragment sequences of the examples. *)
Definition UNCLOSED : list str := [lit "<think>"; lit "no closing"].
Definition NO_TAG : list str := [lit "hello"; lit "world"].
Definition SPLIT_TAGS : list str :=
  [lit "<th"; lit "ink>partial"; lit " reasoning</thi"; lit "nk>"].
Definition SPLIT_CLOSE : list str :=
  [lit "<think>a</thi"; lit "nk>"; lit "tail"].
Definition SPLIT_OPEN : list str :=
  [lit "<th"; lit "ink>partial"; lit " reasoning</think>"; lit " and more"].

(* ================================================================= *)
(** ** The session, and more vocabulary *)

(** Lines 312-345 over the prompts of a session, each with the world of its
    pass through the loop. The loop ends at a [break] or at an exception
    that leaves [main]; when the prompts run out it is waiting for the next
    one. *)
Fixpoint main_loop (chain : ModelChain) (inputs : list (World * prompt))
  : loop * ModelChain * list event :=
  match inputs with
  | [] => (Continue, chain, [])
  | (w, p) :: rest =>
      match main_step w chain p with
      | (Continue, chain', ev) =>
          let '(status, chain'', ev') := main_loop chain' rest in
          (status, chain'', ev ++ ev')
      | stopped => stopped
      end
  end.



(** The model name that a prompt selects, when it is a [model] command
    (lines 327-328). *)
Definition typed_model (p : prompt) : option str :=
  match p with
  | Typed text =>
      let user_input := PyStr.strip text in
      if PyStr.startswith (PyStr.lower user_input) (lit "model ")
      then Some (PyStr.strip (PyStr.slice_from user_input 6))
      else None
  | KeyboardInterrupt | EOFError => None
  end.

(** The condition of line 75: the reasoning call goes to the local
    backend. *)
Definition local_route (chain : ModelChain) : bool :=
  negb (has_official_deepseek chain) || use_ollama_deepseek chain.


(** The exception with which [json.loads(line.decode())] fails on a line,
    [JSONDecodeError] apart. *)
Definition decode_fault (l : line) : option exn :=
  match l with
  | BadUtf8 => Some UnicodeDecodeError
  | LoadsRaises e => Some e
  | EmptyLine | BadJson | Json _ => None
  end.

(** The exception, if any, that a line of a local stream raises past the
    [except json.JSONDecodeError] of the loop. *)
Definition line_raises (l : line) : option exn :=
  match l with
  | BadUtf8 => Some UnicodeDecodeError
  | LoadsRaises e => Some e
  | Json chunk =>
      match message_content chunk with
      | Raise e => Some e
      | Return _ => None
      end
  | EmptyLine | BadJson => None
  end.

(** A line that carries no text: empty, not JSON, or a JSON value without
    [message.content]. *)
Definition line_is_silent (l : line) : bool :=
  match l with
  | EmptyLine | BadJson => true
  | BadUtf8 | LoadsRaises _ => false
  | Json chunk =>
      match message_content chunk with
      | Return None => true
      | _ => false
      end
  end.

(** A line that the loops act on: it carries text or raises. *)
Definition speaks (l : line) : bool := negb (line_is_silent l).

(** The hosted chunks that can be read. *)
Definition readable (c : hosted_chunk) : bool :=
  match c with
  | Delta _ => true
  | Malformed => false
  end.

(** The line that ends an Ollama chat stream: [{"done": true}]. *)
Definition DONE_LINE : line := Json (JObj [(lit "done", JBool true)]).

(** A chunk of a hosted response stream that carries the text [c]. *)
Definition content_chunk (c : str) : hosted_chunk :=
  Delta {| reasoning_content := IsNone; delta_content := Text c |}.


(** A selector that the local backend serves when no OpenRouter key is
    held: the default local model, or a name with the local prefix. *)
Definition local_model (m : str) : Prop :=
  m = OLLAMA_MODEL \/ PyStr.startswith m (lit "ollama:") = true.

(** [new] is [old] with messages appended. *)
Definition extends (old new : list Message) : Prop :=
  exists suffix, new = old ++ suffix.

(* ================================================================= *)
(** ** Facts about string search *)

Unset Implicit Arguments.

Module PyStrFacts.
Import PyStr.

Lemma startswith_app (p t : str) : startswith (p ++ t) p = true.
Proof.
  induction p as [|a p IH]; simpl; [reflexivity|].
  now rewrite Ascii.eqb_refl.
Qed.

Lemma startswith_split (s p : str) :
  startswith s p = true -> exists t, s = p ++ t.
Proof.
  revert s; induction p as [|a p IH]; intros s H; simpl in *.
  - now exists s.
  - destruct s as [|b s]; [discriminate|].
    apply andb_true_iff in H as [Hab Hs].
    apply Ascii.eqb_eq in Hab; subst b.
    destruct (IH _ Hs) as [t ->]. now exists t.
Qed.

Lemma startswith_length (s p : str) :
  startswith s p = true -> (length p <= length s)%nat.
Proof.
  intros H. destruct (startswith_split _ _ H) as [t ->].
  rewrite length_app. lia.
Qed.

(** Only the first [length p] characters of [s] matter. *)
Lemma startswith_long (s t p : str) :
  (length p <= length s)%nat -> startswith (s ++ t) p = startswith s p.
Proof.
  revert s; induction p as [|a p IH]; intros s H; simpl in *; [reflexivity|].
  destruct s as [|b s]; simpl in *; [lia|].
  rewrite IH by lia. reflexivity.
Qed.

Lemma contains_startswith (s p : str) :
  startswith s p = true -> contains s p = true.
Proof. intros H. destruct s; simpl; rewrite H; reflexivity. Qed.

Lemma find_startswith (s p : str) :
  startswith s p = true -> find s p = 0%Z.
Proof. intros H. destruct s; simpl; rewrite H; reflexivity. Qed.

Lemma contains_occurs (s p : str) :
  contains s p = true <-> exists a b, s = a ++ p ++ b.
Proof.
  split.
  - induction s as [|c s IH]; simpl; intros H.
    + rewrite orb_false_r in H.
      destruct (startswith_split _ _ H) as [t Ht]. now exists [], t.
    + apply orb_true_iff in H as [H|H].
      * destruct (startswith_split _ _ H) as [t Ht]. now exists [], t.
      * destruct (IH H) as (a & b & ->). now exists (c :: a), b.
  - intros (a & b & ->). induction a as [|c a IH]; simpl.
    + apply contains_startswith, startswith_app.
    + rewrite IH. apply orb_true_r.
Qed.

Lemma contains_length (s p : str) :
  contains s p = true -> (length p <= length s)%nat.
Proof.
  intros H. apply contains_occurs in H as (a & b & ->).
  rewrite !length_app. lia.
Qed.

Lemma contains_app_l (a b p : str) :
  contains (a ++ b) p = false -> contains a p = false.
Proof.
  intros H. destruct (contains a p) eqn:E; [|reflexivity].
  apply contains_occurs in E as (x & y & ->).
  rewrite <- H. symmetry. apply contains_occurs.
  exists x, (y ++ b). now rewrite <- !app_assoc.
Qed.

Lemma contains_app_r (a b p : str) :
  contains (a ++ b) p = false -> contains b p = false.
Proof.
  intros H. destruct (contains b p) eqn:E; [|reflexivity].
  apply contains_occurs in E as (x & y & ->).
  rewrite <- H. symmetry. apply contains_occurs.
  exists (a ++ x), y. now rewrite <- !app_assoc.
Qed.

Lemma find_cons (c : ascii) (s p : str) :
  find (c :: s) p =
  if startswith (c :: s) p then 0%Z
  else if (find s p <? 0)%Z then (-1)%Z else (find s p + 1)%Z.
Proof. reflexivity. Qed.

Lemma find_absent (s p : str) : contains s p = false -> find s p = (-1)%Z.
Proof.
  induction s as [|c s IH]; simpl; intros H;
    apply orb_false_iff in H as [H1 H2]; rewrite H1; [reflexivity|].
  rewrite (IH H2). reflexivity.
Qed.

Lemma find_present (s p : str) :
  contains s p = true ->
  exists a b, s = a ++ p ++ b /\ find s p = Z.of_nat (length a).
Proof.
  induction s as [|c s IH]; simpl; intros H.
  - rewrite orb_false_r in H. rewrite H.
    destruct (startswith_split _ _ H) as [t Ht]. now exists [], t.
  - destruct (startswith (c :: s) p) eqn:E.
    + destruct (startswith_split _ _ E) as [t Ht]. now exists [], t.
    + simpl in H. destruct (IH H) as (a & b & -> & Hf).
      exists (c :: a), b. split; [reflexivity|].
      rewrite Hf. simpl length.
      destruct (Z.ltb_spec (Z.of_nat (length a)) 0); lia.
Qed.

(** The first occurrence lies in a prefix as soon as the prefix holds one. *)
Lemma find_app (a b p : str) :
  contains a p = true -> find (a ++ b) p = find a p.
Proof.
  induction a as [|c a IH]; simpl; intros H.
  - rewrite orb_false_r in H.
    destruct p; [|discriminate]. destruct b; reflexivity.
  - pose proof (contains_length (c :: a) p) as L. simpl in L.
    rewrite H in L. specialize (L eq_refl).
    change (c :: a ++ b) with ((c :: a) ++ b).
    rewrite startswith_long by (simpl; lia).
    destruct (startswith (c :: a) p) eqn:E; [reflexivity|].
    simpl in H. rewrite (IH H). reflexivity.
Qed.

(** The opening tag cannot overlap itself: an occurrence that starts inside
    a non-empty [pre] ends inside [pre]. *)
Lemma open_tag_no_overlap (c : ascii) (pre rest : str) :
  startswith (c :: pre) OPEN_TAG = false ->
  startswith ((c :: pre) ++ OPEN_TAG ++ rest) OPEN_TAG = false.
Proof.
  intros H.
  destruct pre as [|c2 [|c3 [|c4 [|c5 [|c6 [|c7 pre]]]]]];
    cbn in *;
    repeat match goal with
           | |- context [Ascii.eqb ?x ?y] => destruct (Ascii.eqb x y); cbn in *
           end; congruence.
Qed.

Lemma find_open_first (pre rest : str) :
  contains pre OPEN_TAG = false ->
  find (pre ++ OPEN_TAG ++ rest) OPEN_TAG = Z.of_nat (length pre).
Proof.
  induction pre as [|c pre IH]; intros H.
  - change ([] ++ OPEN_TAG ++ rest) with (OPEN_TAG ++ rest).
    apply find_startswith, startswith_app.
  - simpl in H. apply orb_false_iff in H as [H1 H2].
    pose proof (open_tag_no_overlap c pre rest H1) as H3.
    change ((c :: pre) ++ OPEN_TAG ++ rest)
      with (c :: (pre ++ OPEN_TAG ++ rest)) in *.
    rewrite find_cons, H3, (IH H2).
    destruct (Z.ltb_spec (Z.of_nat (length pre)) 0); [lia|].
    simpl length. lia.
Qed.

End PyStrFacts.

(* ================================================================= *)
(** ** Facts about the loops and the tag extraction *)

Import PyStrFacts.

Lemma not_occurs (p s : str) : ~ occurs p s <-> PyStr.contains s p = false.
Proof.
  unfold occurs. rewrite <- contains_occurs.
  destruct (PyStr.contains s p); split; congruence.
Qed.

Arguments OPEN_TAG : simpl never.
Arguments CLOSE_TAG : simpl never.

(** The last component of what a loop returns. *)
Lemma for_each_nil {S I} (body : I -> S -> list event * control S) st :
  for_each body [] st = ([], Next st).
Proof. reflexivity. Qed.

Lemma for_each_next {S I} (body : I -> S -> list event * control S)
  i rest st ev st' :
  body i st = (ev, Next st') ->
  for_each body (i :: rest) st =
  (ev ++ fst (for_each body rest st'), snd (for_each body rest st')).
Proof.
  intros H. simpl. rewrite H. now destruct (for_each body rest st').
Qed.

Lemma for_each_break {S I} (body : I -> S -> list event * control S)
  i rest st ev st' :
  body i st = (ev, Break st') ->
  for_each body (i :: rest) st = (ev, Break st').
Proof. intros H. simpl. now rewrite H. Qed.

Lemma for_each_throw {S I} (body : I -> S -> list event * control S)
  i rest st ev e :
  body i st = (ev, Throw e) ->
  for_each body (i :: rest) st = (ev, Throw e).
Proof. intros H. simpl. now rewrite H. Qed.

Lemma message_content_line (c : str) :
  message_content (JObj [(lit "message", JObj [(lit "content", JStr c)])])
  = Return (Some c).
Proof. reflexivity. Qed.

(** Printing: a text prints when its parts do. *)
Lemma can_print_app enc (a b : str) :
  can_print enc (a ++ b) = can_print enc a && can_print enc b.
Proof. apply forallb_app. Qed.


Lemma echoes_app enc show (a b : str) :
  echoes enc show (a ++ b) = echoes enc show a && echoes enc show b.
Proof. unfold echoes. rewrite can_print_app. now destruct show. Qed.

Lemma echoes_split enc show (a b : str) :
  echoes enc show (a ++ b) = true ->
  echoes enc show a = true /\ echoes enc show b = true.
Proof. rewrite echoes_app. apply andb_true_iff. Qed.

Lemma echoes_hidden enc (s : str) : echoes enc false s = true.
Proof. reflexivity. Qed.

Lemma print_if_one enc show (s : str) :
  echoes enc show s = true ->
  print_if enc show [s] = (when show [EvPrint s], None).
Proof.
  unfold echoes, print_if, when. destruct show; simpl; [|reflexivity].
  now intros ->.
Qed.

Lemma print_if_two enc show (s t : str) :
  echoes enc show s = true -> echoes enc show t = true ->
  print_if enc show [s; t] = (when show [EvPrint s; EvPrint t], None).
Proof.
  unfold echoes, print_if, when. destruct show; simpl; [|reflexivity].
  now intros -> ->.
Qed.

Lemma think_line_content enc show c st :
  think_line enc show (content_line c) st = think_chunk enc show c st.
Proof. reflexivity. Qed.

Lemma think_chunk_waiting enc show c r buf :
  PyStr.contains (buf ++ c) OPEN_TAG = false ->
  think_chunk enc show c (waiting r buf) = ([], Next (waiting r (buf ++ c))).
Proof.
  intros H. unfold think_chunk, think_open, think_body, waiting; simpl.
  rewrite H. reflexivity.
Qed.

Lemma think_chunk_inside enc show c r :
  PyStr.contains c CLOSE_TAG = false ->
  echoes enc show c = true ->
  think_chunk enc show c (inside r)
  = (when show [EvPrint c], Next (inside (r ++ c))).
Proof.
  intros H Hp. unfold think_chunk, think_open, think_body, inside; simpl.
  rewrite H, (print_if_one _ _ _ Hp). reflexivity.
Qed.

Lemma slice_from_app (a b : str) :
  PyStr.slice_from (a ++ b) (Z.of_nat (length a)) = b.
Proof.
  unfold PyStr.slice_from, PyStr.bound.
  destruct (Z.ltb_spec (Z.of_nat (length a)) 0); [lia|].
  rewrite Nat2Z.id. rewrite skipn_app, skipn_all, Nat.sub_diag. reflexivity.
Qed.

Lemma slice_to_app (a b : str) :
  PyStr.slice_to (a ++ b) (Z.of_nat (length a)) = a.
Proof.
  unfold PyStr.slice_to, PyStr.bound.
  destruct (Z.ltb_spec (Z.of_nat (length a)) 0); [lia|].
  rewrite Nat2Z.id. rewrite firstn_app, firstn_all, Nat.sub_diag. simpl.
  apply app_nil_r.
Qed.

(** The buffer after the opening tag was found at the end of [pre]. *)
Lemma after_open (pre rest : str) :
  PyStr.contains pre OPEN_TAG = false ->
  PyStr.slice_from (pre ++ OPEN_TAG ++ rest)
    (PyStr.find (pre ++ OPEN_TAG ++ rest) OPEN_TAG + 7) = rest.
Proof.
  intros H. rewrite find_open_first by assumption.
  replace (Z.of_nat (length pre) + 7)%Z
    with (Z.of_nat (length (pre ++ OPEN_TAG)))
    by (rewrite length_app; simpl; lia).
  rewrite app_assoc. apply slice_from_app.
Qed.

Lemma think_chunk_opens enc show c r buf pre rest :
  buf ++ c = pre ++ OPEN_TAG ++ rest ->
  PyStr.contains pre OPEN_TAG = false ->
  PyStr.contains rest CLOSE_TAG = false ->
  echoes enc show (OPEN_TAG ++ rest) = true ->
  think_chunk enc show c (waiting r buf)
  = (when show [EvPrint OPEN_TAG] ++ when show [EvPrint rest],
     Next (inside ((r ++ OPEN_TAG) ++ rest))).
Proof.
  intros E Hpre Hrest Hp. apply echoes_split in Hp as [Hp1 Hp2].
  unfold think_chunk, think_open, waiting.
  cbn [has_started_think current_chunk reasoning negb andb].
  rewrite E.
  assert (PyStr.contains (pre ++ OPEN_TAG ++ rest) OPEN_TAG = true) as ->
    by (apply contains_occurs; now exists pre, rest).
  rewrite (print_if_one _ _ _ Hp1). cbv beta iota.
  unfold think_body. cbn [has_started_think current_chunk reasoning].
  rewrite (after_open _ _ Hpre), Hrest, (print_if_one _ _ _ Hp2).
  reflexivity.
Qed.

(** The buffer up to the closing tag found at the end of [body]. *)
Lemma close_tag_no_overlap (c : ascii) (body post : str) :
  PyStr.startswith (c :: body) CLOSE_TAG = false ->
  PyStr.startswith ((c :: body) ++ CLOSE_TAG ++ post) CLOSE_TAG = false.
Proof.
  intros H.
  destruct body as [|c2 [|c3 [|c4 [|c5 [|c6 [|c7 [|c8 body]]]]]]];
    cbn in *; try assumption;
    repeat match goal with
           | |- context [Ascii.eqb ?x ?y] => destruct (Ascii.eqb x y); cbn in *
           end; congruence.
Qed.

Lemma find_close_first (body post : str) :
  PyStr.contains body CLOSE_TAG = false ->
  PyStr.find (body ++ CLOSE_TAG ++ post) CLOSE_TAG = Z.of_nat (length body).
Proof.
  induction body as [|c body IH]; intros H.
  - change ([] ++ CLOSE_TAG ++ post) with (CLOSE_TAG ++ post).
    apply find_startswith, startswith_app.
  - simpl in H. apply orb_false_iff in H as [H1 H2].
    pose proof (close_tag_no_overlap c body post H1) as H3.
    change ((c :: body) ++ CLOSE_TAG ++ post)
      with (c :: (body ++ CLOSE_TAG ++ post)) in *.
    rewrite find_cons, H3, (IH H2).
    destruct (Z.ltb_spec (Z.of_nat (length body)) 0); [lia|].
    simpl length. lia.
Qed.

Lemma think_chunk_opens_closes enc show c r buf pre body post :
  buf ++ c = pre ++ OPEN_TAG ++ body ++ CLOSE_TAG ++ post ->
  PyStr.contains pre OPEN_TAG = false ->
  PyStr.contains body CLOSE_TAG = false ->
  echoes enc show (OPEN_TAG ++ body ++ CLOSE_TAG) = true ->
  snd (think_chunk enc show c (waiting r buf))
  = Break {| reasoning := (r ++ OPEN_TAG) ++ body ++ CLOSE_TAG;
             current_chunk := body ++ CLOSE_TAG ++ post;
             has_started_think := true |}.
Proof.
  intros E Hpre Hbody Hp.
  apply echoes_split in Hp as [Hp1 Hp2]. apply echoes_split in Hp2 as [Hp2 Hp3].
  unfold think_chunk, think_open, waiting.
  cbn [has_started_think current_chunk reasoning negb andb].
  rewrite E.
  assert (PyStr.contains (pre ++ OPEN_TAG ++ body ++ CLOSE_TAG ++ post)
            OPEN_TAG = true) as ->
    by (apply contains_occurs; now exists pre, (body ++ CLOSE_TAG ++ post)).
  rewrite (print_if_one _ _ _ Hp1). cbv beta iota.
  unfold think_body. cbn [has_started_think current_chunk reasoning].
  rewrite (after_open _ _ Hpre).
  assert (PyStr.contains (body ++ CLOSE_TAG ++ post) CLOSE_TAG = true) as ->
    by (apply contains_occurs; now exists body, post).
  rewrite (find_close_first _ _ Hbody), slice_to_app.
  rewrite (print_if_two _ _ _ _ Hp2 Hp3). reflexivity.
Qed.

Lemma think_chunk_closes enc show c r body post :
  c = body ++ CLOSE_TAG ++ post ->
  PyStr.contains body CLOSE_TAG = false ->
  echoes enc show (body ++ CLOSE_TAG) = true ->
  snd (think_chunk enc show c (inside r))
  = Break {| reasoning := r ++ body ++ CLOSE_TAG;
             current_chunk := c;
             has_started_think := true |}.
Proof.
  intros -> Hbody Hp. apply echoes_split in Hp as [Hp1 Hp2].
  unfold think_chunk, think_open, think_body, inside.
  cbn [has_started_think current_chunk reasoning negb andb app].
  assert (PyStr.contains (body ++ CLOSE_TAG ++ post) CLOSE_TAG = true) as ->
    by (apply contains_occurs; now exists body, post).
  rewrite (find_close_first _ _ Hbody), slice_to_app.
  rewrite (print_if_two _ _ _ _ Hp1 Hp2). reflexivity.
Qed.


Lemma run_waiting enc show cs r buf :
  PyStr.contains (buf ++ concat cs) OPEN_TAG = false ->
  snd (for_each (think_line enc show) (fragments cs) (waiting r buf))
  = Next (waiting r (buf ++ concat cs)).
Proof.
  revert buf; induction cs as [|c cs IH]; intros buf H.
  - simpl. now rewrite app_nil_r.
  - simpl concat in *. rewrite app_assoc in H.
    change (fragments (c :: cs)) with (content_line c :: fragments cs).
    erewrite for_each_next
      by (apply think_chunk_waiting, (contains_app_l _ _ _ H)).
    cbn [snd]. rewrite IH by assumption. now rewrite app_assoc.
Qed.

Lemma run_inside enc show cs r :
  PyStr.contains (concat cs) CLOSE_TAG = false ->
  echoes enc show (concat cs) = true ->
  snd (for_each (think_line enc show) (fragments cs) (inside r))
  = Next (inside (r ++ concat cs)).
Proof.
  revert r; induction cs as [|c cs IH]; intros r H Hp.
  - simpl. now rewrite app_nil_r.
  - simpl concat in *. apply echoes_split in Hp as [Hp1 Hp2].
    change (fragments (c :: cs)) with (content_line c :: fragments cs).
    erewrite for_each_next
      by (apply think_chunk_inside;
          [exact (contains_app_l _ _ _ H) | exact Hp1]).
    cbn [snd].
    rewrite IH by (try assumption; eapply contains_app_r; eassumption).
    now rewrite app_assoc.
Qed.

Lemma app_same_length {A} (a b x y : list A) :
  length a = length b -> a ++ x = b ++ y -> a = b /\ x = y.
Proof.
  revert b; induction a as [|c a IH]; intros [|d b] L E; simpl in *;
    try discriminate; [now split|].
  injection E as -> E. destruct (IH b) as [-> ->]; auto.
Qed.

(** Two splits of one text around the first opening tag agree. *)
Lemma split_at_first_open (s t pre rest : str) :
  PyStr.contains s OPEN_TAG = true ->
  s ++ t = pre ++ OPEN_TAG ++ rest ->
  PyStr.contains pre OPEN_TAG = false ->
  exists rest1, s = pre ++ OPEN_TAG ++ rest1 /\ rest = rest1 ++ t.
Proof.
  intros Hs E Hpre.
  destruct (find_present _ _ Hs) as (a & b & Ea & Fa).
  pose proof (find_app s t OPEN_TAG Hs) as F.
  rewrite E, (find_open_first _ _ Hpre), Fa in F.
  apply Nat2Z.inj in F.
  subst s. rewrite <- !app_assoc in E.
  destruct (app_same_length a pre _ _ (eq_sym F) E) as [-> E2].
  apply app_inv_head in E2. exists b. now split.
Qed.

Lemma run_unclosed enc show cs r buf pre rest :
  buf ++ concat cs = pre ++ OPEN_TAG ++ rest ->
  PyStr.contains buf OPEN_TAG = false ->
  PyStr.contains pre OPEN_TAG = false ->
  PyStr.contains rest CLOSE_TAG = false ->
  echoes enc show (OPEN_TAG ++ rest) = true ->
  snd (for_each (think_line enc show) (fragments cs) (waiting r buf))
  = Next (inside (r ++ OPEN_TAG ++ rest)).
Proof.
  revert buf; induction cs as [|c cs IH]; intros buf E Hbuf Hpre Hrest Hp.
  - simpl in E. rewrite app_nil_r in E. exfalso.
    assert (PyStr.contains buf OPEN_TAG = true)
      by (apply contains_occurs; now exists pre, rest).
    congruence.
  - simpl concat in E. rewrite app_assoc in E.
    change (fragments (c :: cs)) with (content_line c :: fragments cs).
    destruct (PyStr.contains (buf ++ c) OPEN_TAG) eqn:Hc.
    + destruct (split_at_first_open _ _ _ _ Hc E Hpre) as (rest1 & E1 & E2).
      subst rest.
      pose proof Hp as Hp'. rewrite app_assoc in Hp'.
      apply echoes_split in Hp' as [Hp1 Hp2].
      erewrite for_each_next
        by (apply (think_chunk_opens enc show c r buf pre rest1 E1 Hpre
                     (contains_app_l _ _ _ Hrest) Hp1)).
      cbn [snd].
      rewrite run_inside
        by (try exact Hp2; eapply contains_app_r; eassumption).
      now rewrite <- !app_assoc.
    + erewrite for_each_next by (apply think_chunk_waiting, Hc).
      cbn [snd]. now apply IH.
Qed.

Lemma for_each_app {S I : Type} (body : I -> S -> list event * control S)
  (l1 l2 : list I) (st st' : S) :
  snd (for_each body l1 st) = Next st' ->
  snd (for_each body (l1 ++ l2) st) = snd (for_each body l2 st').
Proof.
  revert st; induction l1 as [|i l1 IH]; intros st H; simpl in *.
  - now injection H as ->.
  - destruct (body i st) as [ev [s1| s1 | e]]; try discriminate.
    specialize (IH s1).
    destruct (for_each body l1 s1) as [ev1 c1].
    destruct (for_each body (l1 ++ l2) s1) as [ev2 c2].
    simpl in *. now apply IH.
Qed.

(** The loop up to an item on which the body raises. *)
Lemma for_each_raise {S I : Type} (body : I -> S -> list event * control S)
  (pre post : list I) (i : I) (st st' : S) (e : exn) :
  snd (for_each body pre st) = Next st' ->
  body i st' = ([], Throw e) ->
  for_each body (pre ++ i :: post) st
  = (fst (for_each body pre st), Throw e).
Proof.
  revert st; induction pre as [|j pre IH]; intros st Hpre Hi; simpl in *.
  - injection Hpre as ->. now rewrite Hi.
  - destruct (body j st) as [ev [s1|s1|e1]]; try discriminate.
    specialize (IH s1).
    destruct (for_each body pre s1) as [ev1 c1]. simpl in *.
    now rewrite (IH Hpre Hi).
Qed.

(** The local reasoning loop closes the response exactly when it breaks. *)
Lemma print_all_no_close enc (texts : list str) :
  ~ In EvClose (fst (print_all enc texts)).
Proof.
  induction texts as [|s texts IH]; simpl; [tauto|].
  destruct (can_print enc s); simpl; [|tauto].
  destruct (print_all enc texts) as [ev failed]. simpl in *.
  intros [H|H]; [discriminate | contradiction].
Qed.

Lemma print_if_no_close enc show (texts : list str) :
  ~ In EvClose (fst (print_if enc show texts)).
Proof.
  unfold print_if. destruct show; [apply print_all_no_close | simpl; tauto].
Qed.

Lemma think_open_no_close enc show st :
  ~ In EvClose (fst (think_open enc show st))
  /\ forall st', snd (think_open enc show st) <> Break st'.
Proof.
  unfold think_open.
  destruct (negb (has_started_think st)
            && PyStr.contains (current_chunk st) OPEN_TAG);
    [|split; [simpl; tauto | discriminate]].
  pose proof (print_if_no_close enc show [OPEN_TAG]) as H.
  destruct (print_if enc show [OPEN_TAG]) as [ev [e|]];
    (split; [exact H | discriminate]).
Qed.

Lemma think_body_close enc show st :
  In EvClose (fst (think_body enc show st))
  <-> exists st', snd (think_body enc show st) = Break st'.
Proof.
  unfold think_body.
  destruct (has_started_think st);
    [|split; [intros [] | intros [? ?]; discriminate]].
  destruct (PyStr.contains (current_chunk st) CLOSE_TAG).
  - match goal with
    | |- context [print_if enc show ?l] =>
        pose proof (print_if_no_close enc show l) as H;
        destruct (print_if enc show l) as [ev [e|]]
    end; cbn [fst snd] in *.
    + split; [contradiction | intros [? ?]; discriminate].
    + split; [eauto|]. intros _. apply in_app_iff. right. now left.
  - pose proof (print_if_no_close enc show [current_chunk st]) as H.
    destruct (print_if enc show [current_chunk st]) as [ev [e|]];
      cbn [fst snd] in *;
      (split; [contradiction | intros [? ?]; discriminate]).
Qed.

Lemma think_chunk_close enc show c st :
  In EvClose (fst (think_chunk enc show c st))
  <-> exists st', snd (think_chunk enc show c st) = Break st'.
Proof.
  unfold think_chunk.
  match goal with
  | |- context [think_open enc show ?b] =>
      destruct (think_open_no_close enc show b) as [H1 H2];
      destruct (think_open enc show b) as [ev1 [st1|st1|e]]
  end; cbn [fst snd] in *.
  - pose proof (think_body_close enc show st1) as H.
    destruct (think_body enc show st1) as [ev2 c2]. cbn [fst snd] in *.
    rewrite in_app_iff. tauto.
  - now destruct (H2 st1).
  - split; [contradiction | intros [? ?]; discriminate].
Qed.

Lemma think_line_close enc show l st :
  In EvClose (fst (think_line enc show l st))
  <-> exists st', snd (think_line enc show l st) = Break st'.
Proof.
  destruct l as [| | |e|chunk]; simpl;
    try (split; [contradiction | intros [? ?]; discriminate]).
  destruct (message_content chunk) as [[content|]|e]; simpl;
    try (split; [contradiction | intros [? ?]; discriminate]).
  apply think_chunk_close.
Qed.

Lemma for_each_close enc show ls st :
  In EvClose (fst (for_each (think_line enc show) ls st))
  <-> exists st', snd (for_each (think_line enc show) ls st) = Break st'.
Proof.
  revert st; induction ls as [|l ls IH]; intros st; simpl.
  - split; [contradiction | intros [? ?]; discriminate].
  - pose proof (think_line_close enc show l st) as Hl.
    destruct (think_line enc show l st) as [ev [s1|s1|e]]; simpl in Hl.
    + specialize (IH s1).
      destruct (for_each (think_line enc show) ls s1) as [ev' c']; simpl in *.
      rewrite in_app_iff, <- IH. split; [|tauto].
      intros [H|H]; [|assumption].
      apply Hl in H as [? ?]; discriminate.
    + simpl. assumption.
    + simpl. assumption.
Qed.

(** A text that holds the opening tag splits at its first occurrence. *)
Lemma first_occurrence (s p : str) :
  p <> [] -> PyStr.contains s p = true ->
  exists pre rest, s = pre ++ p ++ rest /\ PyStr.contains pre p = false.
Proof.
  intros Hp. induction s as [|c s IH]; simpl; intros H.
  - rewrite orb_false_r in H. destruct p; [congruence | discriminate].
  - destruct (PyStr.startswith (c :: s) p) eqn:E.
    + destruct (startswith_split _ _ E) as [t Ht].
      exists [], t. split; [assumption|]. destruct p; [congruence|reflexivity].
    + simpl in H. destruct (IH H) as (pre & rest & -> & Hpre).
      exists (c :: pre), rest. split; [reflexivity|].
      simpl. rewrite Hpre, orb_false_r.
      destruct (PyStr.startswith (c :: pre) p) eqn:E'; [|reflexivity].
      change (c :: pre ++ p ++ rest) with ((c :: pre) ++ p ++ rest) in E.
      rewrite startswith_long in E by now apply startswith_length.
      congruence.
Qed.

Lemma banner_not_close show : ~ In EvClose (when show [REASONING_BANNER]).
Proof. destruct show; simpl; intuition discriminate. Qed.

Lemma epilogue_not_close show label :
  ~ In EvClose ([thought_for label] ++ when show [EvPrintLn NL]).
Proof. destruct show; simpl; intuition discriminate. Qed.

(** The local reasoning call when the reply runs dry without a break. *)
Lemma local_reasoning_exhausted w self user_input lines st :
  reasoning_reply w user_input = Stream lines true ->
  snd (for_each (think_line (encodes w) (show_reasoning self)) lines think0)
  = Next st ->
  let r := get_ollama_deepseek_reasoning w self user_input in
  value r = Return (reasoning st) /\ obj r = self /\ ~ In EvClose (effects r).
Proof.
  intros Hw Hrun. unfold get_ollama_deepseek_reasoning. rewrite Hw.
  pose proof (for_each_close (encodes w) (show_reasoning self) lines think0)
    as Hc.
  destruct (for_each (think_line (encodes w) (show_reasoning self)) lines
              think0) as [ev c]. simpl in Hrun, Hc. subst c. simpl.
  repeat split. rewrite !in_app_iff. intros [H|[H|H]].
  - now apply banner_not_close in H.
  - apply Hc in H as [? ?]. discriminate.
  - now apply (epilogue_not_close (show_reasoning self)) in H.
Qed.

(** The local reasoning call when the loop breaks at the closing tag. *)
Lemma local_reasoning_closed w self user_input lines ok st :
  reasoning_reply w user_input = Stream lines ok ->
  snd (for_each (think_line (encodes w) (show_reasoning self)) lines think0)
  = Break st ->
  let r := get_ollama_deepseek_reasoning w self user_input in
  value r = Return (reasoning st) /\ obj r = self /\ In EvClose (effects r).
Proof.
  intros Hw Hrun. unfold get_ollama_deepseek_reasoning. rewrite Hw.
  pose proof (for_each_close (encodes w) (show_reasoning self) lines think0)
    as Hc.
  destruct (for_each (think_line (encodes w) (show_reasoning self)) lines
              think0) as [ev c]. simpl in Hrun, Hc. subst c. simpl.
  repeat split. rewrite !in_app_iff. right; left. apply Hc. eauto.
Qed.

Lemma closed_spec {A : Type} (r : result A) :
  closed r = true <-> In EvClose (effects r).
Proof.
  unfold closed. rewrite existsb_exists. split.
  - intros (e & He & Hc). now destruct e.
  - intros H. now exists EvClose.
Qed.

Lemma not_closed {A : Type} (r : result A) :
  ~ In EvClose (effects r) -> closed r = false.
Proof.
  intros H. destruct (closed r) eqn:E; [|reflexivity].
  now apply closed_spec in E.
Qed.

Lemma no_close_anywhere (s : str) :
  PyStr.contains s CLOSE_TAG = false ->
  forall pre rest, s = pre ++ OPEN_TAG ++ rest -> ~ occurs CLOSE_TAG rest.
Proof.
  intros H pre rest ->. apply not_occurs.
  apply contains_app_r in H. now apply contains_app_r in H.
Qed.

(** C4. When the reply of the local reasoning backend ends normally, its
    text never holds the closing tag after an opening tag, and the echo of
    the text cannot raise (the visibility flag is off, or the terminal
    encodes the text), the call returns normally, never closes the response
    early, and returns what it collected: nothing when the text holds no
    opening tag, otherwise the opening tag and everything after its first
    occurrence, with no closing tag added. *)
Theorem unclosed_reasoning_returns_collected
  (w : World) (self : ModelChain) (user_input : str) (cs : list str) :
  reasoning_reply w user_input = Stream (fragments cs) true ->
  (forall pre rest, concat cs = pre ++ OPEN_TAG ++ rest ->
                    ~ occurs CLOSE_TAG rest) ->
  can_echo w self (concat cs) = true ->
  let r := get_ollama_deepseek_reasoning w self user_input in
  closed r = false /\
  ((~ occurs OPEN_TAG (concat cs) /\ value r = Return [])
   \/ (exists pre rest,
          concat cs = pre ++ OPEN_TAG ++ rest /\ ~ occurs OPEN_TAG pre
          /\ value r = Return (OPEN_TAG ++ rest))).
Proof.
  intros Hw Hclose Hecho. unfold can_echo in Hecho.
  destruct (PyStr.contains (concat cs) OPEN_TAG) eqn:Hopen.
  - destruct (first_occurrence (concat cs) OPEN_TAG) as
        (pre & rest & E & Hpre); [discriminate | assumption |].
    pose proof (Hclose _ _ E) as Hrest. apply not_occurs in Hrest.
    rewrite E in Hecho. apply echoes_split in Hecho as [_ Hecho].
    destruct (local_reasoning_exhausted w self user_input (fragments cs)
                (inside (OPEN_TAG ++ rest)) Hw) as (Hv & _ & Hc).
    { change think0 with (waiting [] []).
      apply (run_unclosed (encodes w) (show_reasoning self) cs [] [] pre
               rest); auto. }
    split; [now apply not_closed|]. right. exists pre, rest.
    repeat split; [assumption | now apply not_occurs | exact Hv].
  - destruct (local_reasoning_exhausted w self user_input (fragments cs)
                (waiting [] (concat cs)) Hw) as (Hv & _ & Hc).
    { change think0 with (waiting [] []).
      change (concat cs) with ([] ++ concat cs).
      apply run_waiting. assumption. }
    split; [now apply not_closed|]. left.
    split; [now apply not_occurs | exact Hv].
Qed.

(** The spec's example for C4: fragments ["<think>", "no closing"]. *)
Lemma unclosed_reasoning_example :
  let r := get_ollama_deepseek_reasoning
             (local_world
                (Stream (fragments UNCLOSED) true)
                Refused)
             (init false false) (lit "explain X") in
  closed r = false /\
  ((~ occurs OPEN_TAG (concat UNCLOSED)
    /\ value r = Return [])
   \/ (exists pre rest,
          concat UNCLOSED = pre ++ OPEN_TAG ++ rest
          /\ ~ occurs OPEN_TAG pre
          /\ value r = Return (OPEN_TAG ++ rest))).
Proof.
  apply (unclosed_reasoning_returns_collected
           (local_world
              (Stream (fragments UNCLOSED) true)
              Refused)
           (init false false) (lit "explain X")
           UNCLOSED).
  - reflexivity.
  - apply no_close_anywhere. vm_compute. reflexivity.
  - reflexivity.
Defined.

(* ================================================================= *)
(** ** Items that a loop passes over *)

(** An item on which the body does nothing can be dropped from the
    stream. *)
Lemma for_each_skip {S I : Type} (body : I -> S -> list event * control S)
  (i : I) (pre post : list I) (st : S) :
  (forall s, body i s = ([], Next s)) ->
  for_each body (pre ++ i :: post) st = for_each body (pre ++ post) st.
Proof.
  intros Hi. revert st; induction pre as [|j pre IH]; intros st; simpl.
  - rewrite Hi. now destruct (for_each body post st).
  - destruct (body j st) as [ev [s1|s1|e]]; try reflexivity.
    now rewrite IH.
Qed.

(* ================================================================= *)
(** ** The visibility flag *)













(** What the hosted response loop collects does not depend on the
    terminal. *)
Lemma openrouter_chunk_control enc enc' (c : hosted_chunk) (full : str) :
  snd (openrouter_chunk enc c full) = snd (openrouter_chunk enc' c full).
Proof.
  destruct c as [d|]; simpl; [|reflexivity].
  now destruct (Py.present (delta_content d)).
Qed.

(** Two bodies that decide alike drive a loop alike. *)
Lemma for_each_control {S I : Type}
  (body body' : I -> S -> list event * control S) (items : list I) (st : S) :
  (forall i s, snd (body i s) = snd (body' i s)) ->
  snd (for_each body items st) = snd (for_each body' items st).
Proof.
  intros H. revert st; induction items as [|i items IH]; intros st; simpl.
  - reflexivity.
  - specialize (H i st).
    destruct (body i st) as [ev c], (body' i st) as [ev' c'].
    simpl in H; subst c'. destruct c as [s1|s1|e]; try reflexivity.
    specialize (IH s1).
    destruct (for_each body items s1), (for_each body' items s1).
    exact IH.
Qed.

(** The local reasoning call reads and writes no log. *)
Lemma local_reasoning_keeps_chain (w : World) (self : ModelChain)
  (user_input : str) :
  obj (get_ollama_deepseek_reasoning w self user_input) = self.
Proof.
  unfold get_ollama_deepseek_reasoning.
  destruct (reasoning_reply w user_input) as [|lines ok]; [reflexivity|].
  destruct (for_each (think_line (encodes w) (show_reasoning self))
              lines think0)
    as [ev [s|s|e]]; try destruct ok; reflexivity.
Qed.




(** The value of the hosted reasoning call, read off the loop. *)
Lemma official_reasoning_value (w : World) (self : ModelChain)
  (user_input : str) :
  value (get_official_deepseek_reasoning w self user_input)
  = if negb (has_official_deepseek self) then Raise AttributeError
    else
      match deepseek_api w DEEPSEEK_MODEL
              (deepseek_messages self
               ++ [{| role := user; content := user_input |}]) with
      | Refused => Raise TransportError
      | Stream chunks ok =>
          match snd (for_each (official_chunk (encodes w)
                                 (show_reasoning self)) chunks ([], [])) with
          | Throw e => Raise e
          | Next _ | Break _ =>
              if ok then Raise (NameError (lit "start_time"))
              else Raise TransportError
          end
      end.
Proof.
  unfold get_official_deepseek_reasoning.
  destruct (has_official_deepseek self); cbn [negb]; [|reflexivity].
  cbn [deepseek_messages with_deepseek_messages].
  destruct (deepseek_api w DEEPSEEK_MODEL _) as [|chunks ok]; [reflexivity|].
  match goal with
  | |- context [for_each ?body chunks ?st] =>
      destruct (for_each body chunks st) as [ev [s|s|e]]
  end; try destruct ok; reflexivity.
Qed.

Lemma official_reasoning_logs (w : World) (self : ModelChain)
  (user_input : str) :
  logs (obj (get_official_deepseek_reasoning w self user_input))
  = (deepseek_messages self ++ [{| role := user; content := user_input |}],
     openrouter_messages self, ollama_messages self).
Proof.
  unfold get_official_deepseek_reasoning.
  destruct (has_official_deepseek self); cbn [negb]; [|reflexivity].
  destruct (deepseek_api w DEEPSEEK_MODEL _) as [|chunks ok]; [reflexivity|].
  match goal with
  | |- context [for_each ?body chunks ?st] =>
      destruct (for_each body chunks st) as [ev [s|s|e]]
  end; try destruct ok; reflexivity.
Qed.




(* ================================================================= *)
(** ** Model selection *)

(** C5. Without an OpenRouter key, a selector that lacks the prefix
    ["ollama:"] leaves the local default model active and emits the warning;
    a selector with the prefix becomes the active model as given, with no
    warning. *)
Theorem set_model_coercion (self : ModelChain) (model_name : str) :
  (has_openrouter self = false ->
   PyStr.startswith model_name (lit "ollama:") = false ->
   current_model (fst (set_model self model_name)) = OLLAMA_MODEL
   /\ snd (set_model self model_name) = [EvRich WARNING])
  /\ (PyStr.startswith model_name (lit "ollama:") = true ->
      current_model (fst (set_model self model_name)) = model_name
      /\ snd (set_model self model_name) = []).
Proof.
  unfold set_model. split.
  - intros -> ->. split; reflexivity.
  - intros ->. rewrite andb_false_r. split; reflexivity.
Qed.

(** C5 on the spec's two selectors, with no key configured. *)
Lemma set_model_coercion_example :
  (current_model (fst (set_model (init false false) (lit "gpt-x")))
   = OLLAMA_MODEL
   /\ snd (set_model (init false false) (lit "gpt-x")) = [EvRich WARNING])
  /\ (current_model (fst (set_model (init false false) (lit "ollama:llama3")))
      = lit "ollama:llama3"
      /\ snd (set_model (init false false) (lit "ollama:llama3")) = []).
Proof.
  split.
  - apply (set_model_coercion (init false false) (lit "gpt-x")); reflexivity.
  - apply (set_model_coercion (init false false) (lit "ollama:llama3")).
    reflexivity.
Defined.

(* ================================================================= *)
(** ** The logs after a response call *)

(** C6. A response call that completes without a fault (the header is
    printed, the request is accepted, the stream is read to its end)
    appends the message [{"role": "assistant", "content": full}], with
    [full] the assembled response, once to [deepseek_messages] and once to
    the log of the backend that answered; the third log is left as it was.
    In the hosted log the message follows the user prompt that the call
    appended before the request. *)
Theorem dual_append
  (w : World) (self : ModelChain) (user_input reasoning full : str) :
  header_renders w self ->
  (forall chunks,
      has_openrouter self = true ->
      openrouter_reply w self user_input reasoning = Stream chunks true ->
      snd (for_each (openrouter_chunk (encodes w)) chunks []) = Next full ->
      let r := get_openrouter_response w self user_input reasoning in
      value r = Return full
      /\ deepseek_messages (obj r)
         = deepseek_messages self ++ [{| role := assistant; content := full |}]
      /\ openrouter_messages (obj r)
         = (openrouter_messages self
            ++ [{| role := user;
                   content := combined_prompt user_input reasoning |}])
           ++ [{| role := assistant; content := full |}]
      /\ ollama_messages (obj r) = ollama_messages self)
  /\ (forall lines,
         response_reply w self user_input reasoning = Stream lines true ->
         snd (for_each (response_line (encodes w)) lines []) = Next full ->
         let r := get_ollama_response w self user_input reasoning in
         value r = Return full
         /\ deepseek_messages (obj r)
            = deepseek_messages self
              ++ [{| role := assistant; content := full |}]
         /\ ollama_messages (obj r)
            = ollama_messages self
              ++ [{| role := assistant; content := full |}]
         /\ openrouter_messages (obj r) = openrouter_messages self).
Proof.
  unfold header_renders. intros Hh. split.
  - intros chunks Hkey Hw Hrun. unfold get_openrouter_response.
    rewrite Hh, Hkey, Hw. cbn [negb].
    destruct (for_each (openrouter_chunk (encodes w)) chunks []) as [ev c].
    simpl in Hrun; subst c. repeat split.
  - intros lines Hw Hrun. unfold get_ollama_response. rewrite Hh, Hw.
    destruct (for_each (response_line (encodes w)) lines []) as [ev c].
    simpl in Hrun; subst c. repeat split.
Qed.

(** C6 on a hosted reply in two pieces and on a local reply in one. *)
Lemma dual_append_example :
  let w := world_of Refused (Stream [says "X is "; says "Y"] true)
             Refused (Stream [content_line (lit "X is Y")] true) 0 0 in
  (deepseek_messages
     (obj (get_openrouter_response w (init true true) (lit "explain X")
             (lit "<think>because Y</think>")))
   = [{| role := assistant; content := lit "X is Y" |}])
  /\ (ollama_messages
        (obj (get_ollama_response w (init true false) (lit "explain X")
                (lit "<think>because Y</think>")))
      = [{| role := assistant; content := lit "X is Y" |}]).
Proof.
  cbv zeta. split.
  - apply (dual_append
             (world_of Refused (Stream [says "X is "; says "Y"] true)
                Refused (Stream [content_line (lit "X is Y")] true) 0 0)
             (init true true) (lit "explain X")
             (lit "<think>because Y</think>") (lit "X is Y") eq_refl)
      with (chunks := [says "X is "; says "Y"]); reflexivity.
  - apply (dual_append
             (world_of Refused (Stream [says "X is "; says "Y"] true)
                Refused (Stream [content_line (lit "X is Y")] true) 0 0)
             (init true false) (lit "explain X")
             (lit "<think>because Y</think>") (lit "X is Y") eq_refl)
      with (lines := [content_line (lit "X is Y")]); reflexivity.
Defined.

(* ================================================================= *)
(** ** Transport faults in a response call *)





Lemma in_stream_error (e : exn) (pre ev : list event) :
  In (EvStreamError e) (pre ++ ev ++ [EvStreamError e]).
Proof. rewrite !in_app_iff. right; right; left; reflexivity. Qed.




(* ================================================================= *)
(** ** Clearing the history *)

Lemma clear_logs (chain : ModelChain) : logs (clear chain) = ([], [], []).
Proof. reflexivity. Qed.

Lemma clear_settings (chain : ModelChain) :
  settings (clear chain) = settings chain.
Proof. reflexivity. Qed.

(** A chain is its settings and its logs. *)
Lemma chain_ext (a b : ModelChain) :
  settings a = settings b -> logs a = logs b -> a = b.
Proof.
  destruct a, b. unfold settings, logs. simpl.
  intros H1 H2. injection H1 as -> -> -> -> ->. injection H2 as -> -> ->.
  reflexivity.
Qed.

(** The chain after a turn is the one the last call made has left. *)
Lemma turn_obj (w : World) (chain : ModelChain) (user_input : str) :
  snd (fst (turn w chain user_input))
  = match value (get_deepseek_reasoning w chain user_input) with
    | Raise _ => obj (get_deepseek_reasoning w chain user_input)
    | Return reasoning =>
        obj (get_response w (obj (get_deepseek_reasoning w chain user_input))
               user_input reasoning)
    end.
Proof.
  unfold turn.
  destruct (value (get_deepseek_reasoning w chain user_input)) as [t|e];
    [|reflexivity].
  now destruct (value (get_response w _ user_input t)).
Qed.

(** The messages a response call leaves in empty logs. *)
Lemma response_from_empty_logs (w : World) (chain : ModelChain)
  (user_input reasoning : str) (m : Message) :
  logs chain = ([], [], []) ->
  In m (all_messages (obj (get_response w chain user_input reasoning))) ->
  m = prompt_message user_input reasoning
  \/ (exists full,
         value (get_response w chain user_input reasoning) = Return full
         /\ m = assistant_message full).
Proof.
  intros Hlogs. injection Hlogs as Hd Ho Hl.
  unfold get_response.
  destruct (negb (has_openrouter chain)
            || PyStr.startswith (current_model chain) (lit "ollama:")).
  - unfold get_ollama_response, all_messages.
    destruct (rprint_raises w (header_text chain));
      [cbn; rewrite ?Hd, ?Ho, ?Hl; intros []|].
    destruct (response_reply w chain user_input reasoning)
      as [|lines ok]; cbn; rewrite ?Hd, ?Ho, ?Hl;
      [intros []|].
    destruct (for_each (response_line (encodes w)) lines [])
      as [ev [s|s|e]];
      try destruct ok; cbn; rewrite ?Hd, ?Ho, ?Hl; cbn;
      intros Hin; try contradiction;
      destruct Hin as [<-|[<-|[]]]; right; eauto.
  - unfold get_openrouter_response, all_messages.
    destruct (rprint_raises w (header_text chain));
      [cbn; rewrite ?Hd, ?Ho, ?Hl; cbn; intros [<-|[]]; now left|].
    destruct (has_openrouter chain); cbn [negb];
      [|cbn; rewrite ?Hd, ?Ho, ?Hl; cbn;
        intros [<-|[]]; left; reflexivity].
    destruct (openrouter_reply w chain user_input reasoning)
      as [|chunks ok]; cbn; rewrite ?Hd, ?Ho, ?Hl; cbn;
      [intros [<-|[]]; left; reflexivity|].
    destruct (for_each (openrouter_chunk (encodes w)) chunks [])
      as [ev [s|s|e]];
      try destruct ok; cbn; rewrite ?Hd, ?Ho, ?Hl; cbn;
      intros Hin;
      try (destruct Hin as [<-|[]]; left; reflexivity);
      destruct Hin as [<-|[<-|[<-|[]]]]; eauto.
Qed.

(** Where the messages of a turn come from: the user's text, the prompt
    built from it and from the reasoning of this turn, and the response of
    this turn. *)
Lemma turn_from_empty_logs (w : World) (chain : ModelChain)
  (user_input : str) (m : Message) :
  logs chain = ([], [], []) ->
  In m (all_messages (snd (fst (turn w chain user_input)))) ->
  m = {| role := user; content := user_input |}
  \/ (exists reasoning,
         value (get_deepseek_reasoning w chain user_input) = Return reasoning
         /\ (m = prompt_message user_input reasoning
             \/ (exists full,
                    value (get_response w
                             (obj (get_deepseek_reasoning w chain user_input))
                             user_input reasoning) = Return full
                    /\ m = assistant_message full))).
Proof.
  intros Hlogs. rewrite turn_obj.
  unfold get_deepseek_reasoning.
  destruct (negb (has_official_deepseek chain) || use_ollama_deepseek chain).
  - (* local reasoning: the chain is untouched *)
    rewrite local_reasoning_keeps_chain.
    destruct (value (get_ollama_deepseek_reasoning w chain user_input))
      as [reasoning|e].
    + intros Hin. right. exists reasoning. split; [reflexivity|].
      now apply response_from_empty_logs.
    + injection Hlogs as Hd Ho Hl. unfold all_messages.
      rewrite Hd, Ho, Hl. intros [].
  - (* hosted reasoning: the user message, then an exception *)
    pose proof (official_reasoning_logs w chain user_input) as Hl.
    rewrite official_reasoning_value.
    assert (Hall : all_messages
                     (obj (get_official_deepseek_reasoning w chain user_input))
                   = [{| role := user; content := user_input |}]).
    { injection Hlogs as Hd Ho Hl'. unfold logs in Hl.
      injection Hl as H1 H2 H3. unfold all_messages.
      now rewrite H1, H2, H3, Hd, Ho, Hl'. }
    destruct (negb (has_official_deepseek chain)).
    + rewrite Hall. intros [<-|[]]. now left.
    + destruct (deepseek_api w DEEPSEEK_MODEL _) as [|chunks ok].
      * rewrite Hall. intros [<-|[]]. now left.
      * match goal with
        | |- context [for_each ?body chunks ?st0] =>
            destruct (snd (for_each body chunks st0)) as [st|st|e]
        end; try destruct ok; rewrite Hall; intros [<-|[]]; now left.
Qed.

(** C9. The [clear] command, from any state of the chain: the loop goes
    on, the three logs are empty and nothing else of the chain has changed.
    The turn that follows starts from nothing of the earlier history: it
    runs as it would from any other cleared chain with the same settings,
    and every message in its logs is of that turn. *)
Theorem clear_empties_logs (w : World) (chain : ModelChain) (text : str) :
  PyStr.lower (PyStr.strip text) = lit "clear" ->
  let after := snd (fst (main_step w chain (Typed text))) in
  fst (fst (main_step w chain (Typed text))) = Continue
  /\ logs after = ([], [], [])
  /\ settings after = settings chain
  /\ (forall w' other user_input,
         settings other = settings chain ->
         turn w' after user_input = turn w' (clear other) user_input)
  /\ (forall w' user_input m,
         In m (all_messages (snd (fst (turn w' after user_input)))) ->
         m = {| role := user; content := user_input |}
         \/ (exists reasoning,
                value (get_deepseek_reasoning w' after user_input)
                = Return reasoning
                /\ (m = prompt_message user_input reasoning
                    \/ (exists full,
                           value (get_response w'
                                    (obj (get_deepseek_reasoning w' after
                                            user_input))
                                    user_input reasoning) = Return full
                           /\ m = assistant_message full)))).
Proof.
  intros Hclear. unfold main_step. rewrite Hclear.
  change (PyStr.eqb (lit "clear") (lit "quit")) with false.
  change (PyStr.eqb (lit "clear") (lit "clear")) with true.
  cbv zeta. cbn [fst snd].
  repeat split.
  - intros w' other user_input Hsame. f_equal.
    apply chain_ext; [now rewrite !clear_settings | reflexivity].
  - intros w' user_input m. now apply turn_from_empty_logs.
Qed.

(** C9 on the command as typed, after a turn that left messages in two
    logs. *)
Lemma clear_empties_logs_example :
  logs (snd (fst (main_step (local_world Refused Refused)
                    (with_ollama_messages
                       (with_deepseek_messages (init false false)
                          [assistant_message (lit "X is Y")])
                       [assistant_message (lit "X is Y")])
                    (Typed (lit " Clear ")))))
  = ([], [], []).
Proof.
  apply (clear_empties_logs (local_world Refused Refused)
           (with_ollama_messages
              (with_deepseek_messages (init false false)
                 [assistant_message (lit "X is Y")])
              [assistant_message (lit "X is Y")])
           (lit " Clear ")).
  reflexivity.
Defined.

(* ================================================================= *)
(** ** The elapsed-time label *)

(** [round_half_even] picks an integer nearest to [m * 2^e]. *)
Lemma round_half_even_nearest (m e : Z) :
  (e < 0)%Z ->
  (2 * Z.abs (m - Fmt.round_half_even m e * 2 ^ (- e)) <= 2 ^ (- e))%Z.
Proof.
  intros He. unfold Fmt.round_half_even.
  destruct (Z.leb_spec 0 e); [lia|].
  assert (Hd : (0 < 2 ^ (- e))%Z) by (apply Z.pow_pos_nonneg; lia).
  pose proof (Z.div_mod m (2 ^ (- e)) ltac:(lia)) as Hm.
  pose proof (Z.mod_pos_bound m (2 ^ (- e)) Hd) as Hr.
  set (d := (2 ^ (- e))%Z) in *.
  set (q := (m / d)%Z) in *. set (r := (m mod d)%Z) in *.
  destruct (Z.compare_spec (2 * r) d); [destruct (Z.even q)| |]; nia.
Qed.

Lemma round_half_even_exact (m e : Z) :
  (0 <= e)%Z -> Fmt.round_half_even m e = (m * 2 ^ e)%Z.
Proof.
  intros He. unfold Fmt.round_half_even.
  destruct (Z.leb_spec 0 e); [reflexivity|lia].
Qed.

(** The last digit of the label is one character. *)
Lemma one_decimal_digit (tenths : Z) :
  length (Fmt.digits (tenths mod 10)) = 1%nat.
Proof.
  pose proof (Z.mod_pos_bound tenths 10 ltac:(lia)) as H.
  assert (tenths mod 10 = 0 \/ tenths mod 10 = 1 \/ tenths mod 10 = 2
          \/ tenths mod 10 = 3 \/ tenths mod 10 = 4 \/ tenths mod 10 = 5
          \/ tenths mod 10 = 6 \/ tenths mod 10 = 7 \/ tenths mod 10 = 8
          \/ tenths mod 10 = 9)%Z as Hcases by lia.
  repeat destruct Hcases as [->|Hcases]; try rewrite Hcases; reflexivity.
Qed.

(** C8. The label is in minutes from 60 seconds on and in seconds below;
    the number is printed with one decimal, the tenths being an integer
    nearest to ten times the binary value printed; 45.0 gives
    "45.0 seconds" and 125.0 gives "2.1 minutes". The local reasoning call
    prints the label of the difference of its two clock readings unless it
    ends in the fixed error text. *)
Theorem elapsed_time_label :
  (forall t, (60 <=? t)%float = true ->
             time_str t = Fmt.format_1f (t / 60)%float ++ lit " minutes")
  /\ (forall t, (60 <=? t)%float = false ->
                time_str t = Fmt.format_1f t ++ lit " seconds")
  /\ (forall x m e,
         Prim2SF x = S754_finite false m e ->
         exists tenths,
           Fmt.format_1f x
           = Fmt.digits (tenths / 10) ++ lit "." ++ Fmt.digits (tenths mod 10)
           /\ length (Fmt.digits (tenths mod 10)) = 1%nat
           /\ ((0 <= e)%Z -> tenths = (10 * Z.pos m * 2 ^ e)%Z)
           /\ ((e < 0)%Z ->
               (2 * Z.abs (10 * Z.pos m - tenths * 2 ^ (- e))
                <= 2 ^ (- e))%Z))
  /\ time_str 45 = lit "45.0 seconds"
  /\ time_str 125 = lit "2.1 minutes"
  /\ (forall w self user_input,
         let r := get_ollama_deepseek_reasoning w self user_input in
         (exists e, In (EvStreamError e) (effects r))
         \/ In (thought_for (time_str (clock_end w - clock_start w)%float))
              (effects r)).
Proof.
  split; [|split; [|split; [|split; [|split]]]].
  - intros t H. unfold time_str. now rewrite H.
  - intros t H. unfold time_str. now rewrite H.
  - intros x m e H.
    exists (Fmt.round_half_even (10 * Z.pos m) e).
    unfold Fmt.format_1f. rewrite H. cbn [Fmt.sign app].
    split; [reflexivity|]. split; [|split].
    + apply one_decimal_digit.
    + apply round_half_even_exact.
    + apply round_half_even_nearest.
  - vm_compute. reflexivity.
  - vm_compute. reflexivity.
  - intros w self user_input. unfold get_ollama_deepseek_reasoning.
    destruct (reasoning_reply w user_input) as [|lines ok].
    + left. eexists. apply in_stream_error.
    + destruct (for_each (think_line (encodes w) (show_reasoning self))
                lines think0)
        as [ev [s|s|e]]; try destruct ok;
        try (left; eexists; apply in_stream_error);
        right; cbn [effects]; rewrite !in_app_iff;
        right; right; left; left; reflexivity.
Qed.

(** C8 at one minute exactly and just below it. *)
Lemma elapsed_time_label_example :
  time_str 60 = Fmt.format_1f (60 / 60)%float ++ lit " minutes"
  /\ time_str 59.5 = Fmt.format_1f 59.5 ++ lit " seconds".
Proof.
  destruct elapsed_time_label as (Hmin & Hsec & _).
  split; [apply Hmin | apply Hsec]; reflexivity.
Defined.

(* ================================================================= *)
(** ** Fragment boundaries and the two tags *)

Lemma fragments_app (cs1 cs2 : list str) :
  fragments (cs1 ++ cs2) = fragments cs1 ++ fragments cs2.
Proof. apply map_app. Qed.

(** A suffix no longer than the last fragment lies inside it. *)
Lemma suffix_in_last (rest1 c body t : str) :
  rest1 ++ c = body ++ t -> length t <= length c ->
  exists body2, c = body2 ++ t /\ body = rest1 ++ body2.
Proof.
  intros E L. apply app_eq_app in E as [l [[E1 E2]|[E1 E2]]].
  - assert (l = []) as ->
        by (destruct l; [reflexivity|];
            rewrite E2, length_app in L; simpl in L; lia).
    rewrite app_nil_r in E1. simpl in E2. subst. exists [].
    now rewrite app_nil_r.
  - exists l. now split.
Qed.

(** The loop on a stream whose closing tag arrives whole: either inside the
    fragment [c] (the opening tag having been found before), or in the
    buffer in which the opening tag is found. *)
Lemma run_closed enc show cs1 c cs2 pre body post :
  concat cs1 ++ c = pre ++ OPEN_TAG ++ body ++ CLOSE_TAG ++ post ->
  PyStr.contains pre OPEN_TAG = false ->
  PyStr.contains body CLOSE_TAG = false ->
  length (CLOSE_TAG ++ post) <= length c
  \/ length (concat cs1) < length (pre ++ OPEN_TAG) ->
  echoes enc show (OPEN_TAG ++ body ++ CLOSE_TAG) = true ->
  exists st,
    snd (for_each (think_line enc show) (fragments (cs1 ++ c :: cs2)) think0)
    = Break st
    /\ reasoning st = OPEN_TAG ++ body ++ CLOSE_TAG.
Proof.
  intros E Hpre Hbody Hwhole Hp.
  rewrite fragments_app.
  change (fragments (c :: cs2)) with (content_line c :: fragments cs2).
  change think0 with (waiting [] []).
  destruct (PyStr.contains (concat cs1) OPEN_TAG) eqn:Hopen.
  - destruct (@split_at_first_open (concat cs1) c pre _ Hopen E Hpre)
      as (rest1 & E1 & E2).
    destruct Hwhole as [Hwhole|Hwhole];
      [|rewrite E1, !length_app in Hwhole; lia].
    symmetry in E2.
    destruct (@suffix_in_last rest1 c body _ E2 Hwhole) as (body2 & Ec & Eb).
    subst body.
    assert (Hp1 : echoes enc show (OPEN_TAG ++ rest1) = true
                  /\ echoes enc show (body2 ++ CLOSE_TAG) = true).
    { rewrite <- app_assoc, app_assoc in Hp.
      now apply echoes_split in Hp. }
    destruct Hp1 as [Hp1 Hp2].
    erewrite for_each_app.
    2:{ apply (run_unclosed enc show cs1 [] [] pre rest1); auto.
        now apply contains_app_l in Hbody. }
    pose proof (@think_chunk_closes enc show c ([] ++ OPEN_TAG ++ rest1) body2
                  post Ec (contains_app_r _ _ _ Hbody) Hp2) as Hc.
    destruct (think_chunk enc show c (inside ([] ++ OPEN_TAG ++ rest1)))
      as [ev ctl] eqn:Hstep. simpl in Hc. subst ctl.
    erewrite for_each_break by (rewrite think_line_content; exact Hstep).
    eexists. split; [reflexivity|]. cbn [reasoning app].
    now rewrite <- !app_assoc.
  - erewrite for_each_app
      by (apply run_waiting with (buf := []); assumption).
    pose proof (think_chunk_opens_closes enc show c [] ([] ++ concat cs1)
                  pre body post E Hpre Hbody Hp) as Hc.
    destruct (think_chunk enc show c (waiting [] ([] ++ concat cs1)))
      as [ev ctl] eqn:Hstep. simpl in Hc. subst ctl.
    erewrite for_each_break by (rewrite think_line_content; exact Hstep).
    eexists. split; reflexivity.
Qed.

(** Boundary invariance as far as the code has it. When the text up to and
    including some fragment [c] holds one span, the closing tag of the span
    arrives whole (inside [c], or in the buffer in which the opening tag is
    found), and the echo of the span cannot raise (the visibility flag is
    off, or the terminal encodes the span), the call returns the span
    verbatim, both tags included, and closes the response, wherever the
    other boundaries fall and whatever follows. The opening tag may be
    split at will. *)
Theorem whole_closing_tag_is_found
  (w : World) (self : ModelChain) (user_input : str)
  (cs1 : list str) (c : str) (cs2 : list str) (pre body post : str)
  (ok : bool) :
  reasoning_reply w user_input = Stream (fragments (cs1 ++ c :: cs2)) ok ->
  concat cs1 ++ c = pre ++ OPEN_TAG ++ body ++ CLOSE_TAG ++ post ->
  ~ occurs OPEN_TAG pre ->
  ~ occurs CLOSE_TAG body ->
  length (CLOSE_TAG ++ post) <= length c
  \/ length (concat cs1) < length (pre ++ OPEN_TAG) ->
  can_echo w self (OPEN_TAG ++ body ++ CLOSE_TAG) = true ->
  let r := get_ollama_deepseek_reasoning w self user_input in
  value r = Return (OPEN_TAG ++ body ++ CLOSE_TAG) /\ closed r = true.
Proof.
  intros Hw E Hpre Hbody Hwhole Hecho.
  apply not_occurs in Hpre. apply not_occurs in Hbody.
  destruct (run_closed (encodes w) (show_reasoning self) cs1 c cs2 pre body
              post E Hpre Hbody Hwhole Hecho) as (st & Hrun & Hst).
  destruct (local_reasoning_closed w self user_input _ ok st Hw Hrun)
    as (Hv & _ & Hc).
  cbv zeta. rewrite Hv, Hst. split; [reflexivity|].
  now apply closed_spec.
Qed.

(** The opening tag split over two fragments, text after the span. *)
Lemma whole_closing_tag_example :
  let r := get_ollama_deepseek_reasoning
             (local_world (Stream (fragments SPLIT_OPEN) true) Refused)
             (init false false) (lit "explain X") in
  value r = Return (OPEN_TAG ++ lit "partial reasoning" ++ CLOSE_TAG)
  /\ closed r = true.
Proof.
  apply (whole_closing_tag_is_found
           (local_world (Stream (fragments SPLIT_OPEN) true) Refused)
           (init false false) (lit "explain X")
           [lit "<th"; lit "ink>partial"] (lit " reasoning</think>")
           [lit " and more"] [] (lit "partial reasoning") [] true).
  - reflexivity.
  - reflexivity.
  - apply not_occurs. reflexivity.
  - apply not_occurs. reflexivity.
  - left. vm_compute. lia.
  - reflexivity.
Defined.

(** C1 fails on the code when the closing tag is split: the buffer is
    emptied after every fragment inside the reasoning, so the two halves
    never meet. The text after the tag is then returned as reasoning, and
    the response is never closed. *)
Lemma split_closing_tag_is_missed :
  let r := get_ollama_deepseek_reasoning
             (local_world (Stream (fragments SPLIT_CLOSE) true) Refused)
             (init false false) (lit "explain X") in
  concat SPLIT_CLOSE = lit "<think>a</think>tail"
  /\ value r = Return (lit "<think>a</think>tail")
  /\ closed r = false.
Proof. vm_compute. repeat split. Qed.

(** The spec's own example, closing tag split and nothing after it: the
    text is the span, yet the loop ends by exhaustion, not by the break. *)
Lemma split_tags_example :
  let r := get_ollama_deepseek_reasoning
             (local_world (Stream (fragments SPLIT_TAGS) true) Refused)
             (init false false) (lit "explain X") in
  value r = Return (lit "<think>partial reasoning</think>")
  /\ closed r = false.
Proof. vm_compute. repeat split. Qed.

(* ================================================================= *)
(** ** The user message *)

(** The hosted reasoning call appends the user message, whatever happens
    next. *)
Theorem official_reasoning_appends_user (w : World) (self : ModelChain)
  (user_input : str) :
  logs (obj (get_official_deepseek_reasoning w self user_input))
  = (deepseek_messages self ++ [{| role := user; content := user_input |}],
     openrouter_messages self, ollama_messages self).
Proof.
  unfold get_official_deepseek_reasoning.
  destruct (has_official_deepseek self); cbn [negb]; [|reflexivity].
  destruct (deepseek_api w DEEPSEEK_MODEL _) as [|chunks ok]; [reflexivity|].
  destruct (for_each (official_chunk (encodes w) (show_reasoning self))
              chunks ([], []))
    as [ev [s|s|e]]; try destruct ok; reflexivity.
Qed.

(** A chunk whose delta has no [reasoning_content] attribute, or one with
    [reasoning_content] empty or [None] and no [content] attribute, raises
    [AttributeError] at line 98 or 103. *)
Lemma official_chunk_absent enc show (d : delta) (st : str * str) :
  reasoning_content d = Absent
  \/ (Py.truthy (reasoning_content d) = Return None
      /\ delta_content d = Absent) ->
  official_chunk enc show (Delta d) st = ([], Throw AttributeError).
Proof.
  intros [H|[H1 H2]]; simpl.
  - now rewrite H.
  - now rewrite H1, H2.
Qed.

(** The hosted reasoning call never returns a text. After a stream read to
    its end, line 106 raises [NameError] on [start_time]; before that, a
    chunk whose delta lacks the attribute that the loop reads raises
    [AttributeError], and a print that fails raises too. Nothing in the
    method or in [main] catches any of these. *)
Theorem official_reasoning_raises (w : World) (self : ModelChain)
  (user_input : str) :
  (exists e, value (get_official_deepseek_reasoning w self user_input)
             = Raise e)
  /\ (forall chunks st,
         has_official_deepseek self = true ->
         deepseek_api w DEEPSEEK_MODEL
           (deepseek_messages self
            ++ [{| role := user; content := user_input |}])
         = Stream chunks true ->
         snd (for_each (official_chunk (encodes w) (show_reasoning self))
                chunks ([], []))
         = Next st ->
         value (get_official_deepseek_reasoning w self user_input)
         = Raise (NameError (lit "start_time"))
         /\ fst (fst (turn w (with_model self (current_model self) false)
                        user_input))
            = Crash (NameError (lit "start_time")))
  /\ (forall pre d post ok st,
         has_official_deepseek self = true ->
         deepseek_api w DEEPSEEK_MODEL
           (deepseek_messages self
            ++ [{| role := user; content := user_input |}])
         = Stream (pre ++ Delta d :: post) ok ->
         snd (for_each (official_chunk (encodes w) (show_reasoning self))
                pre ([], []))
         = Next st ->
         reasoning_content d = Absent
         \/ (Py.truthy (reasoning_content d) = Return None
             /\ delta_content d = Absent) ->
         value (get_official_deepseek_reasoning w self user_input)
         = Raise AttributeError).
Proof.
  split; [|split].
  - rewrite official_reasoning_value.
    destruct (negb (has_official_deepseek self)); [now eexists|].
    destruct (deepseek_api w DEEPSEEK_MODEL _) as [|chunks ok];
      [now eexists|].
    match goal with
    | |- context [for_each ?body chunks ?st0] =>
        destruct (snd (for_each body chunks st0)) as [s|s|e]
    end; try destruct ok; now eexists.
  - intros chunks st Hkey Hw Hrun.
    assert (Hv : forall self',
               has_official_deepseek self' = true ->
               deepseek_messages self' = deepseek_messages self ->
               show_reasoning self' = show_reasoning self ->
               value (get_official_deepseek_reasoning w self' user_input)
               = Raise (NameError (lit "start_time"))).
    { intros self' Hk Hd Hs. rewrite official_reasoning_value.
      rewrite Hk, Hd, Hs, Hw, Hrun. reflexivity. }
    split; [now apply Hv|].
    unfold turn, get_deepseek_reasoning.
    cbn [has_official_deepseek use_ollama_deepseek with_model].
    rewrite Hkey. cbn [negb orb].
    rewrite Hv; [reflexivity|assumption|reflexivity|reflexivity].
  - intros pre d post ok st Hkey Hw Hpre Hd.
    rewrite official_reasoning_value, Hkey, Hw. cbn [negb].
    rewrite (@for_each_raise (str * str) hosted_chunk
               (official_chunk (encodes w) (show_reasoning self)) pre post
               (Delta d) ([], []) st AttributeError Hpre
               (official_chunk_absent _ _ d st Hd)).
    reflexivity.
Qed.

(** C2 fails on the local path. The spec's end-to-end turn, local
    reasoning and local response: no log holds a user message afterwards;
    [deepseek_messages] holds the assistant message alone. *)
Lemma local_turn_logs_no_user_message :
  let w := local_world
             (Stream [content_line (lit "<think>because Y</think>")] true)
             (Stream [content_line (lit "X is Y")] true) in
  let after := snd (fst (main_step w (init false false)
                           (Typed (lit "explain X")))) in
  logs after = ([assistant_message (lit "X is Y")], [],
                [assistant_message (lit "X is Y")])
  /\ ~ exists m, In m (all_messages after) /\ role m = user.
Proof.
  cbv zeta. split; [reflexivity|].
  intros (m & Hin & Hm). vm_compute in Hin.
  destruct Hin as [<-|[<-|[]]]; discriminate.
Qed.

(* ================================================================= *)
(** ** The spec's remaining examples, by evaluation *)

(** No opening tag: nothing is collected, nothing is closed. *)
Lemma no_tag_example :
  let r := get_ollama_deepseek_reasoning
             (local_world (Stream (fragments NO_TAG) true) Refused)
             (init false false) (lit "explain X") in
  value r = Return [] /\ closed r = false.
Proof. vm_compute. split; reflexivity. Qed.

(** The flag does change what is printed: hidden, the fragments are not
    echoed. *)
Lemma hidden_reasoning_example :
  let w := local_world (Stream (fragments UNCLOSED) true) Refused in
  effects (get_ollama_deepseek_reasoning w
             (with_show_reasoning (init false false) false) (lit "explain X"))
  = [thought_for (lit "45.0 seconds")]
  /\ effects (get_ollama_deepseek_reasoning w (init false false)
                (lit "explain X"))
     = [REASONING_BANNER; EvPrint OPEN_TAG; EvPrint [];
        EvPrint (lit "no closing"); thought_for (lit "45.0 seconds");
        EvPrintLn NL].
Proof. vm_compute. split; reflexivity. Qed.

(** A hosted reasoning stream that is read to its end: the user message is
    in the log, and the call raises on [start_time]. *)
Lemma official_reasoning_example :
  let w := world_of (Stream [thinks "because Y"; says "."] true) Refused
             Refused Refused 100 145 in
  value (get_official_deepseek_reasoning w (init true true) (lit "explain X"))
  = Raise (NameError (lit "start_time"))
  /\ fst (fst (turn w (with_model (init true true)
                         (current_model (init true true)) false)
                 (lit "explain X")))
     = Crash (NameError (lit "start_time")).
Proof.
  cbv zeta.
  destruct (official_reasoning_raises
              (world_of (Stream [thinks "because Y"; says "."] true) Refused
                 Refused Refused 100 145)
              (init true true) (lit "explain X")) as [_ H].
  apply H with (chunks := [thinks "because Y"; says "."])
               (st := (lit "because Y", lit ".")); reflexivity.
Defined.

(* ================================================================= *)
(** ** What a local stream can and cannot do to a call *)

(** A loop that has left by [break] or by an exception reads no further. *)
Lemma for_each_stops {S I : Type} (body : I -> S -> list event * control S)
  (l1 l2 : list I) (st : S) :
  (forall st', snd (for_each body l1 st) <> Next st') ->
  for_each body (l1 ++ l2) st = for_each body l1 st.
Proof.
  revert st; induction l1 as [|i l1 IH]; intros st H; simpl in *.
  - now destruct (H st).
  - destruct (body i st) as [ev [s1|s1|e]]; try reflexivity.
    specialize (IH s1).
    destruct (for_each body l1 s1) as [ev1 c1]. simpl in *.
    now rewrite IH.
Qed.

(** Once the loop of the local reasoning call has found the closing tag,
    nothing that follows in the stream matters: lines that would raise, and
    a transport fault at the end, are never reached. The two runs compared
    read the same clock and print to the same standard output. *)
Theorem stream_after_close_is_ignored
  (w w' : World) (self : ModelChain) (user_input : str)
  (l1 l2 : list line) (ok ok' : bool) (st : think) :
  clock_start w = clock_start w' -> clock_end w = clock_end w' ->
  encodes w = encodes w' ->
  reasoning_reply w user_input = Stream (l1 ++ l2) ok ->
  reasoning_reply w' user_input = Stream l1 ok' ->
  snd (for_each (think_line (encodes w) (show_reasoning self))
              l1 think0) = Break st ->
  get_ollama_deepseek_reasoning w self user_input
  = get_ollama_deepseek_reasoning w' self user_input
  /\ value (get_ollama_deepseek_reasoning w self user_input)
     = Return (reasoning st)
  /\ closed (get_ollama_deepseek_reasoning w self user_input) = true.
Proof.
  intros Hs He Henc Hw Hw' Hrun.
  assert (Hsame : get_ollama_deepseek_reasoning w self user_input
                  = get_ollama_deepseek_reasoning w' self user_input).
  { unfold get_ollama_deepseek_reasoning. rewrite Hw, Hw', Hs, He, <- Henc.
    rewrite for_each_stops by (intros st'; rewrite Hrun; discriminate).
    destruct (for_each (think_line (encodes w) (show_reasoning self)) l1 think0)
      as [ev c]. simpl in Hrun. subst c. reflexivity. }
  split; [exact Hsame|]. rewrite Hsame. rewrite Henc in Hrun.
  destruct (local_reasoning_closed w' self user_input l1 ok' st Hw' Hrun)
    as (Hv & _ & Hc).
  split; [exact Hv | now apply closed_spec].
Qed.

(** After the span: bytes that are not UTF-8, then a broken connection. *)
Lemma stream_after_close_example :
  get_ollama_deepseek_reasoning
    (local_world
       (Stream ([content_line (lit "<think>a</think>")] ++ [BadUtf8]) false)
       Refused)
    (init false false) (lit "explain X")
  = get_ollama_deepseek_reasoning
      (local_world (Stream [content_line (lit "<think>a</think>")] true)
         Refused)
      (init false false) (lit "explain X").
Proof.
  apply (stream_after_close_is_ignored
           (local_world
              (Stream ([content_line (lit "<think>a</think>")] ++ [BadUtf8])
                 false) Refused)
           (local_world (Stream [content_line (lit "<think>a</think>")] true)
              Refused)
           (init false false) (lit "explain X")
           [content_line (lit "<think>a</think>")] [BadUtf8] false true
           {| reasoning := lit "<think>a</think>";
              current_chunk := lit "a</think>";
              has_started_think := true |}); reflexivity.
Defined.

Lemma think_line_raises enc (show : bool) (l : line) (e : exn) (st : think) :
  line_raises l = Some e -> think_line enc show l st = ([], Throw e).
Proof.
  destruct l as [| | |e'|chunk]; simpl; try discriminate.
  - now intros [= <-].
  - now intros [= <-].
  - destruct (message_content chunk) as [o|e']; [discriminate|].
    now intros [= <-].
Qed.

Lemma response_line_raises enc (l : line) (e : exn) (full : str) :
  line_raises l = Some e -> response_line enc l full = ([], Throw e).
Proof.
  destruct l as [| | |e'|chunk]; simpl; try discriminate.
  - now intros [= <-].
  - now intros [= <-].
  - destruct (message_content chunk) as [o|e']; [discriminate|].
    now intros [= <-].
Qed.

(** The local reasoning call on a stream with a line that raises. *)
Lemma local_reasoning_aborts
  (w : World) (self : ModelChain) (user_input : str)
  (pre post : list line) (l : line) (ok : bool) (e : exn) (st : think) :
  line_raises l = Some e ->
  reasoning_reply w user_input = Stream (pre ++ l :: post) ok ->
  snd (for_each (think_line (encodes w) (show_reasoning self)) pre think0)
  = Next st ->
  let r := get_ollama_deepseek_reasoning w self user_input in
  value r = Return SENTINEL /\ obj r = self
  /\ In (EvStreamError e) (effects r) /\ closed r = false.
Proof.
  intros Hl Hw Hpre.
  pose proof (for_each_close (encodes w) (show_reasoning self) pre think0)
    as Hc.
  rewrite Hpre in Hc.
  unfold closed, get_ollama_deepseek_reasoning. rewrite Hw.
  rewrite (for_each_raise _ pre post l think0 st e Hpre
             (think_line_raises _ _ l e st Hl)).
  cbn [value obj effects]. repeat split.
  - apply in_stream_error.
  - apply not_true_is_false. intros H.
    apply existsb_exists in H as (x & Hin & Hx).
    destruct x; try discriminate.
    rewrite !in_app_iff in Hin. destruct Hin as [H|[H|[H|[]]]].
    + now apply banner_not_close in H.
    + apply Hc in H as [? ?]. discriminate.
    + discriminate.
Qed.

(** The local response call on a stream with a line that raises. *)
Lemma local_response_aborts
  (w : World) (self : ModelChain) (user_input reasoning_text : str)
  (pre post : list line) (l : line) (ok : bool) (e : exn) (full : str) :
  line_raises l = Some e ->
  header_renders w self ->
  response_reply w self user_input reasoning_text
  = Stream (pre ++ l :: post) ok ->
  snd (for_each (response_line (encodes w)) pre []) = Next full ->
  let r := get_ollama_response w self user_input reasoning_text in
  value r = Return SENTINEL /\ obj r = self
  /\ In (EvStreamError e) (effects r).
Proof.
  intros Hl Hh Hw Hpre. unfold header_renders in Hh.
  unfold get_ollama_response. rewrite Hh, Hw.
  rewrite (@for_each_raise str line (response_line (encodes w)) pre post l []
             full e Hpre (response_line_raises _ l e full Hl)).
  cbn [value obj effects]. repeat split. apply in_stream_error.
Qed.

(** Unlike a JSON decode fault, a line that is not UTF-8, or a JSON value
    on which [in], indexing or [+=] raises, ends the call: whatever was
    collected before it is dropped, the fixed error text is returned, the
    fault is reported, no log changes and the response is not closed. This
    holds for both local calls, wherever the line stands in the stream; in
    the response call the header is printed before the [try]. *)
Theorem raising_line_aborts_stream
  (w : World) (self : ModelChain) (user_input reasoning_text : str)
  (pre post : list line) (l : line) (ok : bool) (e : exn) :
  line_raises l = Some e ->
  (forall st,
      reasoning_reply w user_input = Stream (pre ++ l :: post) ok ->
      snd (for_each (think_line (encodes w) (show_reasoning self)) pre think0)
      = Next st ->
      let r := get_ollama_deepseek_reasoning w self user_input in
      value r = Return SENTINEL /\ obj r = self
      /\ In (EvStreamError e) (effects r) /\ closed r = false)
  /\ (forall full,
         header_renders w self ->
         response_reply w self user_input reasoning_text
         = Stream (pre ++ l :: post) ok ->
         snd (for_each (response_line (encodes w)) pre []) = Next full ->
         let r := get_ollama_response w self user_input reasoning_text in
         value r = Return SENTINEL /\ obj r = self
         /\ In (EvStreamError e) (effects r)).
Proof.
  intros Hl. split.
  - intros st Hw Hpre.
    exact (local_reasoning_aborts w self user_input pre post l ok e st
             Hl Hw Hpre).
  - intros full Hh Hw Hpre.
    exact (local_response_aborts w self user_input reasoning_text pre post l
             ok e full Hl Hh Hw Hpre).
Qed.

(** A JSON number between two fragments of the reasoning. *)
Lemma raising_line_example :
  let r := get_ollama_deepseek_reasoning
             (local_world
                (Stream ([content_line (lit "<think>a")] ++ Json (JNum 5)
                         :: [content_line (lit "b</think>")]) true) Refused)
             (init false false) (lit "explain X") in
  value r = Return SENTINEL /\ obj r = init false false
  /\ In (EvStreamError TypeError) (effects r) /\ closed r = false.
Proof.
  destruct (raising_line_aborts_stream
              (local_world
                 (Stream ([content_line (lit "<think>a")] ++ Json (JNum 5)
                          :: [content_line (lit "b</think>")]) true) Refused)
              (init false false) (lit "explain X") []
              [content_line (lit "<think>a")] [content_line (lit "b</think>")]
              (Json (JNum 5)) true TypeError) as [H _]; [reflexivity|].
  apply (H (inside (lit "<think>a"))); reflexivity.
Defined.

(* ================================================================= *)
(** ** Decode faults *)

Lemma decode_fault_raises (l : line) (e : exn) :
  decode_fault l = Some e -> line_raises l = Some e.
Proof. destruct l; simpl; congruence. Qed.

(** C7 as the code has it. A line of a local-backend stream on which
    [json.loads] raises [JSONDecodeError] is skipped: in both local loops,
    and so in both local calls, everything (value, logs, printed output,
    early close) is what it would be had the line been absent, whatever
    comes before and after it. A line on which decoding fails in another
    way (bytes that are not UTF-8, a [ValueError] or [RecursionError] of
    [json.loads]) is not skipped: the loop ends there and the call returns
    the fixed error text, whatever was collected before. *)
Theorem decode_fault_is_skipped
  (enc : ascii -> bool) (show : bool) (pre post : list line) (st : think)
  (full : str) :
  (for_each (think_line enc show) (pre ++ BadJson :: post) st
   = for_each (think_line enc show) (pre ++ post) st
   /\ for_each (response_line enc) (pre ++ BadJson :: post) full
      = for_each (response_line enc) (pre ++ post) full
   /\ (forall w w' self user_input ok,
          clock_start w = clock_start w' -> clock_end w = clock_end w' ->
          same_terminal w w' ->
          reasoning_reply w user_input = Stream (pre ++ BadJson :: post) ok ->
          reasoning_reply w' user_input = Stream (pre ++ post) ok ->
          get_ollama_deepseek_reasoning w self user_input
          = get_ollama_deepseek_reasoning w' self user_input)
   /\ (forall w w' self user_input reasoning ok,
          same_terminal w w' ->
          response_reply w self user_input reasoning
          = Stream (pre ++ BadJson :: post) ok ->
          response_reply w' self user_input reasoning
          = Stream (pre ++ post) ok ->
          get_ollama_response w self user_input reasoning
          = get_ollama_response w' self user_input reasoning))
  /\ (forall l e,
         decode_fault l = Some e ->
         (forall w self user_input ok st',
             reasoning_reply w user_input = Stream (pre ++ l :: post) ok ->
             snd (for_each (think_line (encodes w) (show_reasoning self)) pre
                    think0) = Next st' ->
             let r := get_ollama_deepseek_reasoning w self user_input in
             value r = Return SENTINEL
             /\ In (EvStreamError e) (effects r) /\ closed r = false)
         /\ (forall w self user_input reasoning ok full',
                header_renders w self ->
                response_reply w self user_input reasoning
                = Stream (pre ++ l :: post) ok ->
                snd (for_each (response_line (encodes w)) pre [])
                = Next full' ->
                let r := get_ollama_response w self user_input reasoning in
                value r = Return SENTINEL
                /\ In (EvStreamError e) (effects r))).
Proof.
  assert (Hthink : forall enc' b s,
             for_each (think_line enc' b) (pre ++ BadJson :: post) s
             = for_each (think_line enc' b) (pre ++ post) s)
    by (intros; now apply for_each_skip).
  assert (Hresp : forall enc' s,
             for_each (response_line enc') (pre ++ BadJson :: post) s
             = for_each (response_line enc') (pre ++ post) s)
    by (intros; now apply for_each_skip).
  split; [split; [|split; [|split]]|]; auto.
  - intros w w' self user_input ok Hs He [Henc _] Hw Hw'.
    unfold get_ollama_deepseek_reasoning.
    now rewrite Hw, Hw', Hthink, Hs, He, Henc.
  - intros w w' self user_input reasoning ok [Henc Hrich] Hw Hw'.
    unfold get_ollama_response. now rewrite Hw, Hw', Hresp, Henc, Hrich.
  - intros l e Hl. apply decode_fault_raises in Hl. split.
    + intros w self user_input ok st' Hw Hpre.
      destruct (local_reasoning_aborts w self user_input pre post l ok e st'
                  Hl Hw Hpre) as (Hv & _ & Hin & Hc).
      now repeat split.
    + intros w self user_input reasoning ok full' Hh Hw Hpre.
      destruct (local_response_aborts w self user_input reasoning pre post l
                  ok e full' Hl Hh Hw Hpre) as (Hv & _ & Hin).
      now split.
Qed.

(** C7 at work: a line that is not JSON between the two halves of a split
    opening tag. *)
Lemma decode_fault_example :
  get_ollama_deepseek_reasoning
    (local_world
       (Stream ([content_line (lit "<th")] ++ BadJson
                :: [content_line (lit "ink>a</think>")]) true) Refused)
    (init false false) (lit "explain X")
  = get_ollama_deepseek_reasoning
      (local_world
         (Stream ([content_line (lit "<th")]
                  ++ [content_line (lit "ink>a</think>")]) true) Refused)
      (init false false) (lit "explain X").
Proof.
  destruct (decode_fault_is_skipped (fun _ => true) true
              [content_line (lit "<th")] [content_line (lit "ink>a</think>")]
              think0 []) as ((_ & _ & H & _) & _).
  apply H with (ok := true); try reflexivity. split; reflexivity.
Defined.

(** Against C7 as stated: a line that is not UTF-8 between two fragments.
    With the line the call returns the fixed error text and closes nothing;
    without it, the span. The same line in a response stream loses the
    response. *)
Lemma non_utf8_line_aborts_stream :
  let with_line :=
    local_world
      (Stream [content_line (lit "<think>a"); BadUtf8;
               content_line (lit "b</think>")] true)
      (Stream [content_line (lit "X is "); BadUtf8;
               content_line (lit "Y")] true) in
  let without :=
    local_world
      (Stream [content_line (lit "<think>a");
               content_line (lit "b</think>")] true)
      (Stream [content_line (lit "X is "); content_line (lit "Y")] true) in
  (value (get_ollama_deepseek_reasoning with_line (init false false)
            (lit "explain X")) = Return SENTINEL
   /\ closed (get_ollama_deepseek_reasoning with_line (init false false)
                (lit "explain X")) = false
   /\ value (get_ollama_deepseek_reasoning without (init false false)
               (lit "explain X")) = Return (lit "<think>ab</think>")
   /\ closed (get_ollama_deepseek_reasoning without (init false false)
                (lit "explain X")) = true)
  /\ (value (get_ollama_response with_line (init false false)
               (lit "explain X") []) = Return SENTINEL
      /\ value (get_ollama_response without (init false false)
                  (lit "explain X") []) = Return (lit "X is Y")).
Proof. vm_compute. repeat split. Qed.

(** Items on which the body does nothing can all be dropped. *)
Lemma for_each_filter {S I : Type} (body : I -> S -> list event * control S)
  (keep : I -> bool) (items : list I) (st : S) :
  (forall i s, keep i = false -> body i s = ([], Next s)) ->
  for_each body (filter keep items) st = for_each body items st.
Proof.
  intros Hdrop. revert st; induction items as [|i items IH]; intros st.
  - reflexivity.
  - simpl filter. destruct (keep i) eqn:Hk.
    + simpl. destruct (body i st) as [ev [s1|s1|e]]; try reflexivity.
      now rewrite IH.
    + simpl for_each at 2. rewrite (Hdrop i st Hk), IH.
      now destruct (for_each body items st).
Qed.

Lemma think_line_silent enc (show : bool) (l : line) (st : think) :
  line_is_silent l = true -> think_line enc show l st = ([], Next st).
Proof.
  destruct l as [| | |e|chunk]; simpl; try reflexivity; try discriminate.
  destruct (message_content chunk) as [[c|]|e]; try discriminate.
  reflexivity.
Qed.

Lemma response_line_silent enc (l : line) (full : str) :
  line_is_silent l = true -> response_line enc l full = ([], Next full).
Proof.
  destruct l as [| | |e|chunk]; simpl; try reflexivity; try discriminate.
  destruct (message_content chunk) as [[c|]|e]; try discriminate.
  reflexivity.
Qed.

(** Both local calls see only the lines that carry text or raise: blank
    keep-alive lines, lines on which [json.loads] raises [JSONDecodeError],
    and JSON values without [message.content] (such as [{"done": true}])
    can be removed from the stream, all at once, without any change to what
    the call returns, logs, prints or closes. Lines on which decoding
    raises anything else are not among them. The two runs compared read
    the same clock and print to the same terminal. *)
Theorem silent_lines_are_skipped
  (w w' : World) (self : ModelChain) (user_input reasoning_text : str)
  (lines : list line) (ok : bool) :
  clock_start w = clock_start w' -> clock_end w = clock_end w' ->
  same_terminal w w' ->
  (reasoning_reply w user_input = Stream lines ok ->
   reasoning_reply w' user_input = Stream (filter speaks lines) ok ->
   get_ollama_deepseek_reasoning w self user_input
   = get_ollama_deepseek_reasoning w' self user_input)
  /\ (response_reply w self user_input reasoning_text = Stream lines ok ->
      response_reply w' self user_input reasoning_text
      = Stream (filter speaks lines) ok ->
      get_ollama_response w self user_input reasoning_text
      = get_ollama_response w' self user_input reasoning_text)
  /\ (forall l, In l (filter speaks lines) ->
                line_raises l <> None
                \/ exists c, l = Json c
                             /\ exists text, message_content c
                                             = Return (Some text)).
Proof.
  intros Hs He [Henc Hrich]. split; [|split].
  - intros Hw Hw'.
    unfold get_ollama_deepseek_reasoning. rewrite Hw, Hw', Hs, He, Henc.
    rewrite for_each_filter; [reflexivity|].
    intros l st Hl. apply think_line_silent.
    unfold speaks in Hl. now destruct (line_is_silent l).
  - intros Hw Hw'.
    unfold get_ollama_response. rewrite Hw, Hw', Henc, Hrich.
    rewrite for_each_filter; [reflexivity|].
    intros l st Hl. apply response_line_silent.
    unfold speaks in Hl. now destruct (line_is_silent l).
  - intros l Hl. apply filter_In in Hl as [_ Hl].
    unfold speaks in Hl. destruct l as [| | |e|c]; try discriminate.
    + left. discriminate.
    + left. discriminate.
    + cbn [line_is_silent line_raises] in *.
      destruct (message_content c) as [[text|]|e] eqn:Hc; try discriminate.
      * right. exists c. split; [reflexivity|]. now exists text.
      * left. discriminate.
Qed.

(** A response stream with a blank line, a line that is not JSON and the
    closing [{"done": true}]. *)
Lemma silent_lines_example :
  get_ollama_response
    (local_world Refused
       (Stream [EmptyLine; content_line (lit "X is "); BadJson;
                content_line (lit "Y"); DONE_LINE] true))
    (init false false) (lit "explain X") []
  = get_ollama_response
      (local_world Refused
         (Stream [content_line (lit "X is "); content_line (lit "Y")] true))
      (init false false) (lit "explain X") [].
Proof.
  apply (silent_lines_are_skipped
           (local_world Refused
              (Stream [EmptyLine; content_line (lit "X is "); BadJson;
                       content_line (lit "Y"); DONE_LINE] true))
           (local_world Refused
              (Stream [content_line (lit "X is "); content_line (lit "Y")]
                 true))
           (init false false) (lit "explain X") []
           [EmptyLine; content_line (lit "X is "); BadJson;
            content_line (lit "Y"); DONE_LINE] true); try reflexivity.
  split; reflexivity.
Defined.

(* ================================================================= *)
(** ** The assembled response *)

Lemma response_loop_fragments enc (cs : list str) (full : str) :
  can_print enc (concat cs) = true ->
  for_each (response_line enc) (fragments cs) full
  = (map EvPrint cs, Next (full ++ concat cs)).
Proof.
  revert full; induction cs as [|c cs IH]; intros full Hp.
  - simpl. now rewrite app_nil_r.
  - simpl concat in Hp. rewrite can_print_app in Hp.
    apply andb_true_iff in Hp as [Hc Hp].
    change (fragments (c :: cs)) with (content_line c :: fragments cs).
    simpl for_each. change (map content_line cs) with (fragments cs).
    rewrite Hc, (IH _ Hp). simpl. now rewrite <- app_assoc.
Qed.

(** An unprintable fragment of a local response stream ends the loop. *)
Lemma response_loop_unprintable enc (cs1 cs2 : list str) (c full : str) :
  can_print enc (concat cs1) = true ->
  can_print enc c = false ->
  for_each (response_line enc) (fragments (cs1 ++ c :: cs2)) full
  = (map EvPrint cs1, Throw UnicodeEncodeError).
Proof.
  revert full; induction cs1 as [|c1 cs1 IH]; intros full Hp Hc.
  - simpl. now rewrite Hc.
  - simpl concat in Hp. rewrite can_print_app in Hp.
    apply andb_true_iff in Hp as [Hc1 Hp].
    change (fragments ((c1 :: cs1) ++ c :: cs2))
      with (content_line c1 :: fragments (cs1 ++ c :: cs2)).
    simpl for_each. change (map content_line (cs1 ++ c :: cs2))
      with (fragments (cs1 ++ c :: cs2)).
    rewrite Hc1, (IH _ Hp Hc). reflexivity.
Qed.

(** The hosted loop keeps every piece, printed or not. *)
Lemma openrouter_loop_chunks enc (cs : list str) (full : str) :
  snd (for_each (openrouter_chunk enc) (map content_chunk cs) full)
  = Next (full ++ concat cs)
  /\ (can_print enc (concat cs) = true ->
      fst (for_each (openrouter_chunk enc) (map content_chunk cs) full)
      = map EvPrint cs).
Proof.
  revert full; induction cs as [|c cs IH]; intros full.
  - simpl. now rewrite app_nil_r.
  - simpl. destruct (IH (full ++ c)) as [IH1 IH2].
    destruct (for_each (openrouter_chunk enc) (map content_chunk cs)
                (full ++ c)) as [ev ctl].
    cbn [fst snd] in *. split.
    + now rewrite IH1, <- app_assoc.
    + rewrite can_print_app. intros Hp.
      apply andb_true_iff in Hp as [Hc Hp]. now rewrite Hc, (IH2 Hp).
Qed.

(** A response stream that ends without a fault, the header being printed:
    the hosted call returns the concatenation of the fragments in the order
    of arrival, and so does the local call when the terminal encodes them.
    Each fragment is then echoed as it arrives, after the model header and
    before a final blank line. A fragment that the terminal cannot encode
    ends the local call with the fixed error text and nothing logged; the
    hosted call keeps it. *)
Theorem response_is_concatenation
  (w : World) (self : ModelChain) (user_input reasoning_text : str)
  (cs : list str) :
  header_renders w self ->
  (response_reply w self user_input reasoning_text
   = Stream (fragments cs) true ->
   let r := get_ollama_response w self user_input reasoning_text in
   (printable w (concat cs) = true ->
    value r = Return (concat cs)
    /\ effects r = [model_header self] ++ map EvPrint cs ++ [EvPrintLn NL])
   /\ (forall cs1 c cs2,
          cs = cs1 ++ c :: cs2 ->
          printable w (concat cs1) = true -> printable w c = false ->
          value r = Return SENTINEL /\ obj r = self
          /\ effects r = [model_header self] ++ map EvPrint cs1
                         ++ [EvStreamError UnicodeEncodeError]))
  /\ (has_openrouter self = true ->
      openrouter_reply w self user_input reasoning_text
      = Stream (map content_chunk cs) true ->
      let r := get_openrouter_response w self user_input reasoning_text in
      value r = Return (concat cs)
      /\ (printable w (concat cs) = true ->
          effects r
          = [model_header self] ++ map EvPrint cs ++ [EvPrintLn NL])).
Proof.
  unfold header_renders, printable. intros Hh. split.
  - intros Hw. cbv zeta. unfold get_ollama_response. rewrite Hh, Hw. split.
    + intros Hp. rewrite (response_loop_fragments _ _ _ Hp).
      split; reflexivity.
    + intros cs1 c cs2 -> Hp Hc.
      rewrite (response_loop_unprintable _ _ _ _ _ Hp Hc).
      repeat split.
  - intros Hk Hw. cbv zeta. unfold get_openrouter_response.
    rewrite Hh, Hk, Hw. cbn [negb].
    destruct (openrouter_loop_chunks (encodes w) cs []) as [H1 H2].
    destruct (for_each (openrouter_chunk (encodes w)) (map content_chunk cs)
                []) as [ev ctl].
    cbn [fst snd] in *. subst ctl. split; [reflexivity|].
    intros Hp. now rewrite (H2 Hp).
Qed.

Lemma response_is_concatenation_example :
  value (get_ollama_response
           (local_world Refused
              (Stream (fragments [lit "X "; lit "is "; lit "Y"]) true))
           (init false false) (lit "explain X") [])
  = Return (concat [lit "X "; lit "is "; lit "Y"]).
Proof.
  apply (response_is_concatenation
           (local_world Refused
              (Stream (fragments [lit "X "; lit "is "; lit "Y"]) true))
           (init false false) (lit "explain X") []
           [lit "X "; lit "is "; lit "Y"]); reflexivity.
Defined.

Lemma openrouter_loop_readable enc (chunks : list hosted_chunk) (full : str) :
  snd (for_each (openrouter_chunk enc) (filter readable chunks) full)
  = snd (for_each (openrouter_chunk enc) chunks full)
  /\ (In Malformed chunks ->
      In (EvChunkError ChunkError)
        (fst (for_each (openrouter_chunk enc) chunks full))).
Proof.
  revert full; induction chunks as [|c chunks IH]; intros full.
  - split; [reflexivity | intros []].
  - destruct c as [d|]; simpl.
    + destruct (Py.present (delta_content d)) as [piece|];
        [specialize (IH (full ++ piece)) | specialize (IH full)];
        destruct IH as [IH1 IH2];
        destruct (for_each (openrouter_chunk enc) (filter readable chunks) _),
                 (for_each (openrouter_chunk enc) chunks _);
        simpl in *; (split; [assumption|]);
        intros [H|H]; try discriminate; auto.
      apply in_app_iff. right. auto.
    + destruct (IH full) as [IH1 IH2].
      destruct (for_each (openrouter_chunk enc) (filter readable chunks) full),
               (for_each (openrouter_chunk enc) chunks full).
      simpl in *. split; [assumption|]. intros _. now left.
Qed.

(** A hosted response chunk that cannot be read is reported and skipped:
    the value and the logs of the call are those of the stream without the
    unreadable chunks, and each such chunk leaves an error on the
    terminal. In both runs the header is printed before the [try]. *)
Theorem malformed_chunk_is_reported_and_skipped
  (w w' : World) (self : ModelChain) (user_input reasoning_text : str)
  (chunks : list hosted_chunk) (ok : bool) :
  header_renders w self -> header_renders w' self ->
  has_openrouter self = true ->
  openrouter_reply w self user_input reasoning_text = Stream chunks ok ->
  openrouter_reply w' self user_input reasoning_text
  = Stream (filter readable chunks) ok ->
  let r := get_openrouter_response w self user_input reasoning_text in
  let r' := get_openrouter_response w' self user_input reasoning_text in
  value r = value r' /\ obj r = obj r'
  /\ (In Malformed chunks -> In (EvChunkError ChunkError) (effects r)).
Proof.
  unfold header_renders. intros Hh Hh' Hk Hw Hw'. cbv zeta.
  unfold get_openrouter_response.
  rewrite Hh, Hh', Hk, Hw, Hw'. cbn [negb].
  destruct (openrouter_loop_readable (encodes w) chunks []) as [H1 H2].
  pose proof (for_each_control (openrouter_chunk (encodes w'))
                (openrouter_chunk (encodes w)) (filter readable chunks) []
                (openrouter_chunk_control (encodes w') (encodes w))) as H3.
  destruct (for_each (openrouter_chunk (encodes w)) (filter readable chunks) [])
    as [ev1 c1],
    (for_each (openrouter_chunk (encodes w')) (filter readable chunks) [])
    as [ev' c'], (for_each (openrouter_chunk (encodes w)) chunks [])
    as [ev c].
  simpl in H1, H2, H3. subst c1 c'.
  destruct c as [s|s|e]; try destruct ok; cbn [value obj effects];
    repeat split; intros H; rewrite !in_app_iff; right; left; auto.
Qed.

Lemma malformed_chunk_example :
  let r := get_openrouter_response
             (world_of Refused (Stream [says "X is "; Malformed; says "Y"] true)
                Refused Refused 0 0)
             (init true true) (lit "explain X") [] in
  let r' := get_openrouter_response
              (world_of Refused (Stream [says "X is "; says "Y"] true)
                 Refused Refused 0 0)
              (init true true) (lit "explain X") [] in
  value r = value r' /\ obj r = obj r'
  /\ (In Malformed [says "X is "; Malformed; says "Y"] ->
      In (EvChunkError ChunkError) (effects r)).
Proof.
  apply (malformed_chunk_is_reported_and_skipped
           (world_of Refused (Stream [says "X is "; Malformed; says "Y"] true)
              Refused Refused 0 0)
           (world_of Refused (Stream [says "X is "; says "Y"] true)
              Refused Refused 0 0)
           (init true true) (lit "explain X") []
           [says "X is "; Malformed; says "Y"] true); reflexivity.
Defined.

(* ================================================================= *)
(** ** The shape of the reasoning text *)







(* ================================================================= *)
(** ** What a turn and a session keep *)

Lemma extends_refl (l : list Message) : extends l l.
Proof. exists []. now rewrite app_nil_r. Qed.

Lemma extends_trans (a b c : list Message) :
  extends a b -> extends b c -> extends a c.
Proof.
  intros [x ->] [y ->]. exists (x ++ y). now rewrite app_assoc.
Qed.

Lemma extends_app (l suffix : list Message) : extends l (l ++ suffix).
Proof. now exists suffix. Qed.

(** The local response call: settings and the hosted log untouched, the
    other two logs extended. *)
Lemma ollama_response_chain (w : World) (self : ModelChain)
  (user_input reasoning_text : str) :
  let r := get_ollama_response w self user_input reasoning_text in
  settings (obj r) = settings self
  /\ openrouter_messages (obj r) = openrouter_messages self
  /\ extends (deepseek_messages self) (deepseek_messages (obj r))
  /\ extends (ollama_messages self) (ollama_messages (obj r)).
Proof.
  cbv zeta. unfold get_ollama_response.
  destruct (rprint_raises w (header_text self));
    [repeat split; apply extends_refl|].
  destruct (response_reply w self user_input reasoning_text) as [|lines ok].
  - repeat split; apply extends_refl.
  - destruct (for_each (response_line (encodes w)) lines []) as [ev [s|s|e]];
      try destruct ok; cbn [obj]; repeat split;
      try apply extends_refl; apply extends_app.
Qed.

(** The hosted response call: settings and the local log untouched, the
    hosted log extended by the prompt and what follows it. *)
Lemma openrouter_response_chain (w : World) (self : ModelChain)
  (user_input reasoning_text : str) :
  let r := get_openrouter_response w self user_input reasoning_text in
  settings (obj r) = settings self
  /\ ollama_messages (obj r) = ollama_messages self
  /\ extends (deepseek_messages self) (deepseek_messages (obj r))
  /\ extends (openrouter_messages self
              ++ [prompt_message user_input reasoning_text])
       (openrouter_messages (obj r)).
Proof.
  cbv zeta. unfold get_openrouter_response.
  destruct (rprint_raises w (header_text self));
    [repeat split; apply extends_refl|].
  destruct (has_openrouter self); cbn [negb].
  - destruct (openrouter_reply w self user_input reasoning_text)
      as [|chunks ok].
    + repeat split; apply extends_refl.
    + destruct (for_each (openrouter_chunk (encodes w)) chunks [])
        as [ev [s|s|e]];
        try destruct ok; cbn [obj]; repeat split;
        try apply extends_refl; apply extends_app.
  - repeat split; apply extends_refl.
Qed.

Lemma official_reasoning_settings (w : World) (self : ModelChain)
  (user_input : str) :
  settings (obj (get_official_deepseek_reasoning w self user_input))
  = settings self.
Proof.
  unfold get_official_deepseek_reasoning.
  destruct (has_official_deepseek self) eqn:Hk; cbn [negb]; [|reflexivity].
  destruct (deepseek_api w DEEPSEEK_MODEL _) as [|chunks ok]; [reflexivity|].
  destruct (for_each (official_chunk (encodes w) (show_reasoning self))
              chunks ([], []))
    as [ev [s|s|e]]; try destruct ok; reflexivity.
Qed.

Lemma reasoning_chain (w : World) (self : ModelChain) (user_input : str) :
  let r := get_deepseek_reasoning w self user_input in
  settings (obj r) = settings self
  /\ openrouter_messages (obj r) = openrouter_messages self
  /\ ollama_messages (obj r) = ollama_messages self
  /\ extends (deepseek_messages self) (deepseek_messages (obj r)).
Proof.
  cbv zeta. unfold get_deepseek_reasoning.
  destruct (negb (has_official_deepseek self) || use_ollama_deepseek self).
  - rewrite local_reasoning_keeps_chain. repeat split. apply extends_refl.
  - pose proof (official_reasoning_logs w self user_input) as H.
    unfold logs in H. injection H as Hd Ho Hl.
    rewrite official_reasoning_settings, Hd, Ho, Hl.
    repeat split. apply extends_app.
Qed.

Lemma response_chain (w : World) (self : ModelChain)
  (user_input reasoning_text : str) :
  let r := get_response w self user_input reasoning_text in
  settings (obj r) = settings self
  /\ extends (deepseek_messages self) (deepseek_messages (obj r))
  /\ extends (openrouter_messages self) (openrouter_messages (obj r))
  /\ extends (ollama_messages self) (ollama_messages (obj r))
  /\ (has_openrouter self = false ->
      openrouter_messages (obj r) = openrouter_messages self).
Proof.
  cbv zeta. unfold get_response.
  destruct (has_openrouter self) eqn:Hk; cbn [negb orb].
  - destruct (PyStr.startswith (current_model self) (lit "ollama:")).
    + destruct (ollama_response_chain w self user_input reasoning_text)
        as (Hs & Ho & Hd & Hl).
      rewrite Ho. split; [assumption|].
      repeat split; auto using extends_refl.
    + destruct (openrouter_response_chain w self user_input reasoning_text)
        as (Hs & Hl & Hd & Ho).
      rewrite Hl. split; [assumption|]. split; [assumption|].
      split; [|split; [apply extends_refl | discriminate]].
      eapply extends_trans; [apply extends_app | exact Ho].
  - destruct (ollama_response_chain w self user_input reasoning_text)
      as (Hs & Ho & Hd & Hl).
    rewrite Ho. split; [assumption|].
    repeat split; auto using extends_refl.
Qed.

Lemma turn_chain (w : World) (chain : ModelChain) (user_input : str) :
  let after := snd (fst (turn w chain user_input)) in
  settings after = settings chain
  /\ extends (deepseek_messages chain) (deepseek_messages after)
  /\ extends (openrouter_messages chain) (openrouter_messages after)
  /\ extends (ollama_messages chain) (ollama_messages after)
  /\ (has_openrouter chain = false ->
      openrouter_messages after = openrouter_messages chain).
Proof.
  cbv zeta. unfold turn.
  destruct (reasoning_chain w chain user_input) as (Hs & Ho & Hl & Hd).
  set (r := get_deepseek_reasoning w chain user_input) in *.
  destruct (value r) as [text|e].
  - destruct (response_chain w (obj r) user_input text)
      as (Hs' & Hd' & Ho' & Hl' & Hk').
    set (r' := get_response w (obj r) user_input text) in *.
    assert (Hafter : snd (fst (match value r' with
                               | Return _ =>
                                   (Continue, obj r', effects r ++ effects r')
                               | Raise e =>
                                   (Crash e, obj r', effects r ++ effects r')
                               end)) = obj r')
      by now destruct (value r').
    rewrite Hafter. rewrite Ho in Ho', Hk'. rewrite Hl in Hl'.
    repeat split.
    + now rewrite Hs', Hs.
    + eapply extends_trans; eassumption.
    + assumption.
    + assumption.
    + intros Hk. apply Hk'.
      unfold settings in Hs. injection Hs as _ Hs _ _ _. now rewrite Hs.
  - cbn [fst snd]. rewrite Ho, Hl.
    repeat split; auto using extends_refl.
Qed.

(** A turn only appends: it keeps the settings of the chain, and each of
    the three logs afterwards is the log before with messages added at the
    end; without an OpenRouter key the hosted log is left as it was. *)
Theorem turn_only_appends (w : World) (chain : ModelChain)
  (user_input : str) :
  let after := snd (fst (turn w chain user_input)) in
  settings after = settings chain
  /\ extends (deepseek_messages chain) (deepseek_messages after)
  /\ extends (openrouter_messages chain) (openrouter_messages after)
  /\ extends (ollama_messages chain) (ollama_messages after)
  /\ (has_openrouter chain = false ->
      openrouter_messages after = openrouter_messages chain).
Proof. exact (turn_chain w chain user_input). Qed.



Lemma set_model_keeps (self : ModelChain) (model_name : str) :
  let self' := fst (set_model self model_name) in
  has_official_deepseek self' = has_official_deepseek self
  /\ has_openrouter self' = has_openrouter self
  /\ show_reasoning self' = show_reasoning self
  /\ logs self' = logs self.
Proof.
  cbv zeta. unfold set_model.
  destruct (negb (has_openrouter self)
            && negb (PyStr.startswith model_name (lit "ollama:")));
    repeat split.
Qed.

(** What one pass of the loop does to the chain, command by command. *)
Lemma main_step_cases (w : World) (chain : ModelChain) (p : prompt) :
  let after := snd (fst (main_step w chain p)) in
  after = chain
  \/ after = clear chain
  \/ (exists name, typed_model p = Some name
                   /\ after = fst (set_model chain name))
  \/ after = with_show_reasoning chain (negb (show_reasoning chain))
  \/ (exists user_input,
         main_step w chain p = turn w chain user_input).
Proof.
  cbv zeta. unfold main_step, typed_model.
  destruct p as [text| |]; cbn [fst snd]; auto.
  destruct (PyStr.eqb (PyStr.lower (PyStr.strip text)) (lit "quit")).
  { destruct (can_print (encodes w) GOODBYE_TEXT); cbn [fst snd]; auto. }
  destruct (PyStr.eqb (PyStr.lower (PyStr.strip text)) (lit "clear"));
    cbn [fst snd]; auto.
  destruct (PyStr.startswith (PyStr.lower (PyStr.strip text)) (lit "model ")).
  - right; right; left.
    exists (PyStr.strip (PyStr.slice_from (PyStr.strip text) 6)).
    split; [reflexivity|].
    destruct (set_model chain _) as [chain' ev]. cbn [fst].
    now destruct (can_print (encodes w) _).
  - destruct (PyStr.eqb (PyStr.lower (PyStr.strip text)) (lit "reasoning"));
      cbn [fst snd]; [auto|].
    right; right; right; right. eauto.
Qed.

Lemma main_step_keys (w : World) (chain : ModelChain) (p : prompt) :
  let after := snd (fst (main_step w chain p)) in
  has_official_deepseek after = has_official_deepseek chain
  /\ has_openrouter after = has_openrouter chain.
Proof.
  cbv zeta.
  destruct (main_step_cases w chain p)
    as [->|[->|[(name & _ & ->)|[->|[u ->]]]]]; try (split; reflexivity).
  - destruct (set_model_keeps chain name) as (H1 & H2 & _). now split.
  - destruct (turn_chain w chain u) as (Hs & _).
    unfold settings in Hs. injection Hs as H1 H2 _ _ _. now split.
Qed.







(** A model name that holds a closing markup tag, selected without any
    check, ends the session at the next turn: the header of the response
    call is printed before the [try], and [MarkupError] leaves [main]. *)
Theorem markup_in_model_name_ends_session :
  let w := with_terminal (local_world Refused Refused) (fun _ => true)
             strict_markup in
  main_step w (init false false) (Typed (lit "model ollama:[/x]"))
  = (Continue, with_model (init false false) (lit "ollama:[/x]") false,
     [changed_model (lit "ollama:[/x]")])
  /\ fst (fst (main_loop (init false false)
                 [(w, Typed (lit "model ollama:[/x]"));
                  (w, Typed (lit "explain X"))]))
     = Crash MarkupError.
Proof. vm_compute. split; reflexivity. Qed.

Lemma main_step_keyless (w : World) (chain : ModelChain) (p : prompt) :
  has_openrouter chain = false ->
  openrouter_messages chain = [] ->
  local_model (current_model chain) ->
  let after := snd (fst (main_step w chain p)) in
  openrouter_messages after = [] /\ local_model (current_model after).
Proof.
  intros Hk Ho Hm. cbv zeta.
  destruct (main_step_cases w chain p)
    as [->|[->|[(name & _ & ->)|[->|[u ->]]]]]; try (split; assumption).
  - split; [reflexivity | assumption].
  - destruct (set_model_keeps chain name) as (_ & _ & _ & Hl).
    unfold logs in Hl. injection Hl as _ Hl _. rewrite Hl. split; [exact Ho|].
    unfold set_model. rewrite Hk. cbn [negb andb].
    destruct (PyStr.startswith name (lit "ollama:")) eqn:Hp; cbn [negb fst].
    + now right.
    + now left.
  - destruct (turn_chain w chain u) as (Hs & _ & _ & _ & Hkeep).
    rewrite (Hkeep Hk). split; [exact Ho|].
    unfold settings in Hs. injection Hs as _ _ Hs _ _. now rewrite Hs.
Qed.

(** Without an OpenRouter key, a session that starts with an empty hosted
    log and a local model never writes to [openrouter_messages] and never
    makes a hosted model the active one, whatever is typed. *)
Theorem session_without_openrouter_key_stays_local
  (chain : ModelChain) (inputs : list (World * prompt)) :
  has_openrouter chain = false ->
  openrouter_messages chain = [] ->
  local_model (current_model chain) ->
  let after := snd (fst (main_loop chain inputs)) in
  has_openrouter after = false
  /\ openrouter_messages after = []
  /\ local_model (current_model after).
Proof.
  cbv zeta. revert chain; induction inputs as [|[w p] inputs IH];
    intros chain Hk Ho Hm.
  - simpl. auto.
  - simpl main_loop.
    pose proof (main_step_keyless w chain p Hk Ho Hm) as [Ho' Hm'].
    pose proof (main_step_keys w chain p) as [_ Hk'].
    destruct (main_step w chain p) as [[status chain'] ev].
    cbn [fst snd] in *. rewrite Hk in Hk'.
    destruct status as [| |e]; cbn [fst snd]; auto.
    specialize (IH chain' Hk' Ho' Hm').
    now destruct (main_loop chain' inputs) as [[status' chain''] ev'].
Qed.

Lemma session_without_openrouter_key_example :
  let after :=
    snd (fst (main_loop (init true false)
                [(local_world Refused Refused, Typed (lit "model gpt-x"));
                 (local_world Refused Refused,
                  Typed (lit "model ollama:llama3"));
                 (local_world Refused Refused, Typed (lit "clear"))])) in
  has_openrouter after = false
  /\ openrouter_messages after = []
  /\ local_model (current_model after).
Proof.
  apply (session_without_openrouter_key_stays_local (init true false)).
  - reflexivity.
  - reflexivity.
  - left. reflexivity.
Defined.

(* ================================================================= *)
(** ** Faults of the local reasoning call, and the commands *)



Lemma toggle_back (chain : ModelChain) :
  with_show_reasoning
    (with_show_reasoning chain (negb (show_reasoning chain)))
    (negb (negb (show_reasoning chain)))
  = chain.
Proof. destruct chain as [a b c d e f g h]. simpl. now rewrite negb_involutive. Qed.

(** The [reasoning] command, in any letter case and with blanks around it,
    flips the visibility flag and nothing else; typed twice it gives back
    the chain as it was. *)
Theorem reasoning_toggle_twice
  (w w' : World) (chain : ModelChain) (text text' : str) :
  PyStr.lower (PyStr.strip text) = lit "reasoning" ->
  PyStr.lower (PyStr.strip text') = lit "reasoning" ->
  let once := snd (fst (main_step w chain (Typed text))) in
  fst (fst (main_step w chain (Typed text))) = Continue
  /\ show_reasoning once = negb (show_reasoning chain)
  /\ logs once = logs chain
  /\ current_model once = current_model chain
  /\ snd (main_step w chain (Typed text))
     = [reasoning_status (negb (show_reasoning chain))]
  /\ main_step w' once (Typed text')
     = (Continue, chain, [reasoning_status (show_reasoning chain)]).
Proof.
  intros H H'. cbv zeta. unfold main_step. rewrite H, H'.
  change (PyStr.eqb (lit "reasoning") (lit "quit")) with false.
  change (PyStr.eqb (lit "reasoning") (lit "clear")) with false.
  change (PyStr.startswith (lit "reasoning") (lit "model ")) with false.
  change (PyStr.eqb (lit "reasoning") (lit "reasoning")) with true.
  cbn [fst snd show_reasoning with_show_reasoning].
  repeat split. rewrite toggle_back. now rewrite negb_involutive.
Qed.

Lemma reasoning_toggle_example :
  main_step (local_world Refused Refused)
    (snd (fst (main_step (local_world Refused Refused) (init false false)
                 (Typed (lit " Reasoning ")))))
    (Typed (lit "REASONING"))
  = (Continue, init false false, [reasoning_status true]).
Proof.
  apply (reasoning_toggle_twice (local_world Refused Refused)
           (local_world Refused Refused) (init false false)
           (lit " Reasoning ") (lit "REASONING")); reflexivity.
Defined.

Lemma replace_from_absent (s old new : str) :
  PyStr.contains s old = false -> PyStr.replace_from old new 0 s = s.
Proof.
  induction s as [|c s IH]; intros H; [reflexivity|].
  simpl in H. apply orb_false_iff in H as [H1 H2].
  cbn [PyStr.replace_from]. rewrite H1. now rewrite IH.
Qed.

(** Removing the local prefix gives back the name behind it. *)
Lemma replace_local_prefix (name : str) :
  PyStr.contains name (lit "ollama:") = false ->
  PyStr.replace (lit "ollama:" ++ name) (lit "ollama:") [] = name.
Proof.
  intros H. unfold PyStr.replace. cbn -[PyStr.contains].
  now apply replace_from_absent.
Qed.

Lemma model_is_no_other_command (u : str) :
  PyStr.startswith u (lit "model ") = true ->
  PyStr.eqb u (lit "quit") = false /\ PyStr.eqb u (lit "clear") = false.
Proof.
  intros H. destruct (startswith_split _ _ H) as [t ->].
  split; reflexivity.
Qed.

(** The local response call reads the world through the terminal and
    through the reply to its one request. *)
Lemma ollama_response_reads (w w' : World) (self : ModelChain)
  (user_input reasoning_text : str) :
  same_terminal w w' ->
  response_reply w self user_input reasoning_text
  = response_reply w' self user_input reasoning_text ->
  get_ollama_response w self user_input reasoning_text
  = get_ollama_response w' self user_input reasoning_text.
Proof.
  intros [Henc Hrich] Hreply. unfold get_ollama_response.
  now rewrite Hreply, Henc, Hrich.
Qed.

(** The command [model ollama:NAME]: ["ollama:NAME"] becomes the active
    model, unchecked, and the logs are untouched; the loop goes on when the
    confirmation can be printed, and ends in [UnicodeEncodeError]
    otherwise. From then on the response call is the local one, and the
    reasoning call stays local exactly when there is no DeepSeek key or
    [NAME] starts with ["deepseek"]. When [rich] rejects the header of the
    new name, the response call raises before any request; otherwise its
    one request asks the local backend for the model [NAME], and the reply
    to that request and the terminal decide the call. *)
Theorem model_command_routes_local
  (w : World) (chain : ModelChain) (text name : str) :
  PyStr.startswith (PyStr.lower (PyStr.strip text)) (lit "model ") = true ->
  PyStr.strip (PyStr.slice_from (PyStr.strip text) 6) = lit "ollama:" ++ name ->
  ~ occurs (lit "ollama:") name ->
  let after := snd (fst (main_step w chain (Typed text))) in
  fst (fst (main_step w chain (Typed text)))
  = (if printable w (changed_model_text (lit "ollama:" ++ name))
     then Continue else Crash UnicodeEncodeError)
  /\ current_model after = lit "ollama:" ++ name
  /\ logs after = logs chain
  /\ local_route after
     = negb (has_official_deepseek chain)
       || PyStr.startswith name (lit "deepseek")
  /\ (forall w' user_input reasoning_text,
         get_response w' after user_input reasoning_text
         = get_ollama_response w' after user_input reasoning_text
         /\ response_reply w' after user_input reasoning_text
            = ollama_api w' name
                (response_messages user_input reasoning_text)
         /\ (forall e,
                rprint_raises w' (header_of (lit "ollama:" ++ name)) = Some e ->
                get_response w' after user_input reasoning_text
                = {| value := Raise e; obj := after; effects := [] |})
         /\ (forall w'',
                same_terminal w' w'' ->
                ollama_api w' name (response_messages user_input reasoning_text)
                = ollama_api w'' name
                    (response_messages user_input reasoning_text) ->
                get_response w' after user_input reasoning_text
                = get_response w'' after user_input reasoning_text)).
Proof.
  intros Hcmd Hname Habs. cbv zeta. apply not_occurs in Habs.
  destruct (model_is_no_other_command _ Hcmd) as [Hq Hc].
  unfold main_step. rewrite Hq, Hc, Hcmd, Hname.
  unfold set_model.
  change (PyStr.startswith (lit "ollama:" ++ name) (lit "ollama:"))
    with true.
  rewrite andb_false_r.
  change (PyStr.startswith (lit "ollama:" ++ name) (lit "ollama:deepseek"))
    with (PyStr.startswith name (lit "deepseek")).
  cbn [get_model_display_name current_model with_model app].
  unfold printable.
  set (after := with_model chain (lit "ollama:" ++ name)
                  (PyStr.startswith name (lit "deepseek"))).
  assert (Hafter : forall (b : bool) (x y : loop) (e1 e2 : list event),
             snd (fst (if b then (x, after, e1) else (y, after, e2))) = after)
    by now intros [].
  rewrite !Hafter.
  assert (Hroute : forall w' u r,
             get_response w' after u r = get_ollama_response w' after u r).
  { intros w' u r. unfold get_response, after.
    cbn [current_model with_model].
    change (PyStr.startswith (lit "ollama:" ++ name) (lit "ollama:"))
      with true.
    now rewrite orb_true_r. }
  assert (Hreply : forall w' u r,
             response_reply w' after u r
             = ollama_api w' name (response_messages u r)).
  { intros w' u r. unfold response_reply, after.
    cbn [current_model with_model]. now rewrite replace_local_prefix. }
  split; [now destruct (can_print _ _)|].
  split; [reflexivity|]. split; [reflexivity|]. split; [reflexivity|].
  intros w' u r. split; [apply Hroute|]. split; [apply Hreply|]. split.
  - intros e He. rewrite Hroute. unfold get_ollama_response.
    change (header_text after) with (header_of (lit "ollama:" ++ name)).
    now rewrite He.
  - intros w'' Hterm Hsame. rewrite !Hroute.
    apply ollama_response_reads; [exact Hterm|].
    now rewrite !Hreply.
Qed.

Lemma model_command_example :
  let after := snd (fst (main_step (local_world Refused Refused)
                           (init true true)
                           (Typed (lit "  Model  ollama:llama3 ")))) in
  get_response (local_world Refused Refused) after (lit "explain X") []
  = get_ollama_response (local_world Refused Refused) after
      (lit "explain X") []
  /\ response_reply (local_world Refused Refused) after (lit "explain X") []
     = ollama_api (local_world Refused Refused) (lit "llama3")
         (response_messages (lit "explain X") []).
Proof.
  cbv zeta.
  destruct (model_command_routes_local (local_world Refused Refused)
              (init true true) (lit "  Model  ollama:llama3 ") (lit "llama3"))
    as (_ & _ & _ & _ & H).
  - reflexivity.
  - reflexivity.
  - apply not_occurs. reflexivity.
  - destruct (H (local_world Refused Refused) (lit "explain X") [])
      as (H1 & H2 & _).
    now split.
Defined.
